(** * Products API: the Express route handlers of the catalog server

    A shallow embedding of the request handlers of the products server
    (the [app.get] callbacks for [/api/products], [/api/products/:id],
    [/api/products/search/:term] and [/api/stats]) together with the
    parts of the JavaScript runtime and of the document store that the
    handlers rely on.

    Conventions of the model.
    - A JavaScript string is the [string] of the bytes of its UTF-8
      encoding.  White space is that of Unicode and the length of a
      string is counted in UTF-16 code units, as the runtime does; case
      folding is that of ASCII.
    - A query-string value is [option string]: [None] is [undefined].
      Repeated keys and bracket syntax (arrays, nested objects) are not
      modelled.
    - A number that the code uses as an integer ([page], [limit], [id],
      a count) is the [Z] it denotes, and [2^1024] stands for
      [Infinity]; a price is the rational [Q] it denotes.  What the
      runtime computes is rounded to binary64 ([JS.round] on integers,
      [JS.fl] on rationals), to the nearest value and to the even one at
      a tie; the two places where the list handler keeps the integer are
      marked there.
    - The store is a list of products in natural order; every call that
      reaches it is recorded in a trace. *)

From Stdlib Require Import ZArith QArith Qround Qabs Qpower List String Ascii Bool Lia Lqa.
From Stdlib Require Import DecimalString DecimalN Sorted Permutation.
Import ListNotations.

Local Open Scope string_scope.
Local Open Scope list_scope.
Local Open Scope Z_scope.

(* ================================================================= *)
(** ** The JavaScript runtime *)

Module JS.

(** A JavaScript number as far as the handlers can tell numbers apart. *)
Inductive number :=
| NaN
| Infinity (negative : bool)
| Num (q : Q).

(** ToBoolean on a number: [NaN], [+0] and [-0] are falsy. *)
Definition truthy_number (n : number) : bool :=
  match n with
  | NaN => false
  | Infinity _ => true
  | Num q => negb (Qnum q =? 0)
  end.

(** ToBoolean on a string: only the empty string is falsy. *)
Definition truthy_string (s : string) : bool :=
  match s with
  | EmptyString => false
  | String _ _ => true
  end.

(** ToBoolean on a query-string value ([undefined] is falsy). *)
Definition truthy (v : option string) : bool :=
  match v with
  | None => false
  | Some s => truthy_string s
  end.

Definition code (c : ascii) : Z := Z.of_N (N_of_ascii c).

(** WhiteSpace and LineTerminator code points below 128. *)
Definition is_ws (c : ascii) : bool :=
  let n := code c in
  ((9 <=? n) && (n <=? 13)) || (n =? 32).

(** U+00A0, the one encoded in two bytes. *)
Definition is_ws2 (c1 c2 : ascii) : bool :=
  (code c1 =? 194) && (code c2 =? 160).

(** Those encoded in three bytes: U+1680, U+2000 to U+200A, U+2028,
    U+2029, U+202F, U+205F, U+3000 and U+FEFF. *)
Definition is_ws3 (c1 c2 c3 : ascii) : bool :=
  let a := code c1 in
  let b := code c2 in
  let c := code c3 in
  ((a =? 225) && (b =? 154) && (c =? 128))
  || ((a =? 226) && (b =? 128)
      && (((128 <=? c) && (c <=? 138)) || (c =? 168) || (c =? 169) || (c =? 175)))
  || ((a =? 226) && (b =? 129) && (c =? 159))
  || ((a =? 227) && (b =? 128) && (c =? 128))
  || ((a =? 239) && (b =? 187) && (c =? 191)).

Fixpoint trimStart (s : list ascii) : list ascii :=
  match s with
  | [] => []
  | c1 :: t1 =>
      if is_ws c1 then trimStart t1
      else
        match t1 with
        | [] => s
        | c2 :: t2 =>
            if is_ws2 c1 c2 then trimStart t2
            else
              match t2 with
              | [] => s
              | c3 :: t3 => if is_ws3 c1 c2 c3 then trimStart t3 else s
              end
        end
  end.

(** What is left of [s] without the white space at its end: a character
    is kept as long as something other than white space follows. *)
Fixpoint trimEnd (s : list ascii) : list ascii :=
  match s with
  | [] => []
  | c :: t =>
      match trimStart s with
      | [] => []
      | _ :: _ => c :: trimEnd t
      end
  end.

(** [String.prototype.trim] *)
Definition trim (s : string) : string :=
  string_of_list_ascii (trimEnd (trimStart (list_ascii_of_string s))).

(** [String.prototype.length]: the number of UTF-16 code units, one for
    a character and two for a character encoded in four bytes.  The
    bytes [10xxxxxx] continue a character. *)
Definition length (s : string) : nat :=
  List.length
    (flat_map (fun c =>
                 let n := code c in
                 if (128 <=? n) && (n <? 192) then []
                 else if 240 <=? n then [c; c]
                 else [c])
       (list_ascii_of_string s)).

(** The integer that stands for [Infinity]. *)
Definition infinity : Z := 2 ^ 1024.

(** The binary64 number nearest to the integer [n], the even one at a
    tie: the integers up to [2^53] are kept, a larger one keeps its 53
    leading bits. *)
Definition round (n : Z) : Z :=
  let a := Z.abs n in
  let u := Z.log2 a - 52 in
  if u <=? 0 then n
  else
    let k := a / 2 ^ u in
    let r := a mod 2 ^ u in
    let half := 2 ^ (u - 1) in
    let k' := if r <? half then k
              else if half <? r then k + 1
              else if Z.even k then k else k + 1 in
    Z.sgn n * Z.min infinity (k' * 2 ^ u).

(** The integer nearest to [num / den], the even one at a tie. *)
Definition nearest (num den : Z) : Z :=
  let k := num / den in
  let r := num mod den in
  if 2 * r <? den then k
  else if den <? 2 * r then k + 1
  else if Z.even k then k else k + 1.

(** The binary exponent [e] of the positive rational [n / d]:
    [2^e <= n / d < 2^(e+1)]. *)
Definition binade (n d : positive) : Z :=
  let a := Z.log2 (Z.pos n) in
  let b := Z.log2 (Z.pos d) in
  let at_least := if b <=? a then Z.pos d * 2 ^ (a - b) <=? Z.pos n
                  else Z.pos d <=? Z.pos n * 2 ^ (b - a) in
  if at_least then a - b else a - b - 1.

(** [k * 2^u] *)
Definition scaled (k u : Z) : Q :=
  if 0 <=? u then inject_Z (k * 2 ^ u) else Qmake k (Z.to_pos (2 ^ (- u))).

(** The binary64 number nearest to the positive rational [n / d]: with
    [u] the exponent of its last place (that of the subnormal numbers at
    least), the quotient by [2^u] is rounded to an integer.  Overflow is
    left to the caller. *)
Definition fl_pos (n d : positive) : Q :=
  let u := Z.max (binade n d - 52) (-1074) in
  let k := if 0 <=? u then nearest (Z.pos n) (Z.pos d * 2 ^ u)
           else nearest (Z.pos n * 2 ^ (- u)) (Z.pos d) in
  Qred (scaled k u).

Definition fl (x : Q) : Q :=
  match Qnum x with
  | Z0 => 0%Q
  | Z.pos n => fl_pos n (Qden x)
  | Z.neg n => Qopp (fl_pos n (Qden x))
  end.

(** The product and the quotient of two numbers. *)
Definition mul (x y : Q) : Q := fl (Qmult x y).
Definition div (x y : Q) : Q := fl (Qdiv x y).

(** The value of [c] as a digit in the given radix, if it is one. *)
Definition digit (radix : Z) (c : ascii) : option Z :=
  let n := code c in
  let v := if (48 <=? n) && (n <=? 57) then n - 48
           else if (97 <=? n) && (n <=? 122) then n - 87
           else if (65 <=? n) && (n <=? 90) then n - 55
           else 36 in
  if v <? radix then Some v else None.

(** The longest prefix of digits, and what follows it. *)
Fixpoint digits (radix : Z) (s : list ascii) : list Z * list ascii :=
  match s with
  | [] => ([], [])
  | c :: t =>
      match digit radix c with
      | Some d => let (ds, rest) := digits radix t in (d :: ds, rest)
      | None => ([], s)
      end
  end.

Definition value (radix : Z) (ds : list Z) : Z :=
  fold_left (fun acc d => acc * radix + d) ds 0.

(** An optional sign. *)
Definition strip_sign (s : list ascii) : Z * list ascii :=
  match s with
  | c :: t =>
      if Ascii.eqb c "-" then (-1, t)
      else if Ascii.eqb c "+" then (1, t)
      else (1, s)
  | [] => (1, s)
  end.

(** The radix, 16 after a prefix [0x] or [0X] and 10 otherwise. *)
Definition strip_radix (s : list ascii) : Z * list ascii :=
  match s with
  | c1 :: c2 :: t =>
      if Ascii.eqb c1 "0" && (Ascii.eqb c2 "x" || Ascii.eqb c2 "X") then (16, t)
      else (10, s)
  | _ => (10, s)
  end.

(** The mathematical integer that [parseInt(string)], with no radix
    argument, reads from a string.  [None] is [NaN]. *)
Definition mathInt (s : string) : option Z :=
  let s1 := trimStart (list_ascii_of_string s) in
  let (sign, s2) := strip_sign s1 in
  let (radix, s3) := strip_radix s2 in
  match fst (digits radix s3) with
  | [] => None
  | ds => Some (sign * value radix ds)
  end.

(** [parseInt(string)]: the number for that integer. *)
Definition parseInt_string (s : string) : option Z :=
  option_map round (mathInt s).

(** [parseInt(v)] on a query-string value: [undefined] is first turned
    into the string ["undefined"], which has no digits. *)
Definition parseInt (v : option string) : option Z :=
  match v with
  | None => None
  | Some s => parseInt_string s
  end.

(** [parseInt(v) || d]: [NaN] and [0] are falsy. *)
Definition or_default (n : option Z) (d : Z) : Z :=
  match n with
  | None => d
  | Some 0 => d
  | Some k => k
  end.

Fixpoint starts_with (p s : list ascii) : bool :=
  match p, s with
  | [], _ => true
  | a :: p', b :: s' => Ascii.eqb a b && starts_with p' s'
  | _ :: _, [] => false
  end.

(** An optional ExponentPart: consumed only when it is complete. *)
Definition exponent (s : list ascii) : Z :=
  match s with
  | c :: t =>
      if Ascii.eqb c "e" || Ascii.eqb c "E" then
        let (sg, t') := strip_sign t in
        match fst (digits 10 t') with
        | [] => 0
        | ds => sg * value 10 ds
        end
      else 0
  | [] => 0
  end.

Definition pow10 (e : Z) : Q :=
  if 0 <=? e then inject_Z (10 ^ e) else Qinv (inject_Z (10 ^ (- e))).

(** The number of a decimal literal [m * 10^e] with [0 <= m]: the
    nearest binary64 number, infinite when the rounding reaches
    [2^1024]. *)
Definition of_decimal (neg : bool) (m : Z) (e : Z) : number :=
  let q := fl (Qmult (inject_Z m) (pow10 e)) in
  if Qle_bool (inject_Z infinity) q then Infinity neg
  else Num (if neg then Qopp q else q).

(** [parseFloat(string)]: the longest prefix that is a StrDecimalLiteral. *)
Definition parseFloat (s : string) : number :=
  let s1 := trimStart (list_ascii_of_string s) in
  let (sign, s2) := strip_sign s1 in
  let neg := sign <? 0 in
  if starts_with (list_ascii_of_string "Infinity") s2 then Infinity neg
  else
    let (ip, s3) := digits 10 s2 in
    let (fp, s4) :=
      match s3 with
      | c :: t => if Ascii.eqb c "." then digits 10 t else ([], s3)
      | [] => ([], s3)
      end in
    match ip ++ fp with
    | [] => NaN
    | ds => of_decimal neg (value 10 ds) (exponent s4 - Z.of_nat (List.length fp))
    end.

(** [Math.ceil] and [Math.round] (halves go up). *)
Definition Math_ceil (q : Q) : Z := Qceiling q.
Definition Math_round (q : Q) : Z := Qfloor (Qplus q (1 # 2)).

(** The decimal digits of a non-negative integer. *)
Definition decimal (n : Z) : string :=
  NilZero.string_of_uint (N.to_uint (Z.to_N n)).

(** The fewest digits that still denote the number [n] of [len] digits:
    with [k] digits, the two candidates around [n] are tried, the nearer
    one first and the even one at a tie.  The result is the digits and
    the decimal exponent of the first of them. *)
Fixpoint shortest (fuel : nat) (k len n : Z) : Z * Z :=
  let p := 10 ^ (len - k) in
  let lo := n / p in
  let hi := lo + 1 in
  let ok_lo := round (lo * p) =? n in
  let ok_hi := round (hi * p) =? n in
  let dlo := n - lo * p in
  let dhi := hi * p - n in
  if ok_lo && (negb ok_hi || (dlo <? dhi) || ((dlo =? dhi) && Z.even lo))
  then (lo, len - 1)
  else if ok_hi then (if hi =? 10 ^ k then (10 ^ (k - 1), len) else (hi, len - 1))
  else
    match fuel with
    | O => (n, len - 1)
    | S f => shortest f (k + 1) len n
    end.

(** The exponent form [d.ddde+x]. *)
Definition exponent_form (n : Z) : string :=
  let len := Z.of_nat (String.length (decimal n)) in
  let (s, e) := shortest 20 1 len n in
  match decimal s with
  | String d EmptyString => String d EmptyString
  | String d rest => String d (String "." rest)
  | EmptyString => EmptyString
  end ++ "e+" ++ decimal e.

(** Number to string, for the number of a non-negative integer: all its
    digits below [10^21], the exponent form from there on. *)
Definition toString (n : Z) : string :=
  if infinity <=? n then "Infinity"
  else if n <? 10 ^ 21 then decimal n
  else exponent_form n.

Definition is_decimal (c : ascii) : bool := (48 <=? code c) && (code c <=? 57).

(** [/^\d+$/.test(s)] *)
Definition all_digits (s : string) : bool :=
  match list_ascii_of_string s with
  | [] => false
  | l => forallb is_decimal l
  end.

End JS.

(* ================================================================= *)
(** ** Regular expressions of the store

    The handlers hand the caller's text to the store as the pattern of a
    [$regex] condition.  The store searches the pattern anywhere in the
    field.  The syntax modelled here is: literal characters, [.], the
    anchors [^] and [$], a backslash before a character that is neither a
    letter nor a digit, groups [( )], alternation [|] and the postfix
    operators [*], [+] and [?].  Every other construct (character
    classes, counted repetition, letter escapes, [(?] groups, lazy and
    possessive operators) is outside the model and is refused like a
    malformed pattern; [within] tells the patterns written in the
    modelled syntax, and what is said below about the refusal of a
    pattern is said of these. *)

Module Regex.

Inductive regex :=
| Empty
| Char (c : ascii)
| Any
| Bol
| Eol
| Seq (r1 r2 : regex)
| Alt (r1 r2 : regex)
| Star (r : regex).

(** One open group: the alternatives already closed by a [|], the items
    of the current alternative (last first), and whether the last item
    may take a postfix operator. *)
Record frame := { alts : list regex; cur : list regex; rep : bool }.

Definition empty_frame : frame := {| alts := []; cur := []; rep := false |}.

Definition seq_of (items : list regex) : regex := fold_right Seq Empty items.

Fixpoint alt_of (r : regex) (rs : list regex) : regex :=
  match rs with
  | [] => r
  | r' :: rs' => Alt r (alt_of r' rs')
  end.

(** The expression of a finished group. *)
Definition close (f : frame) : regex :=
  match rev (seq_of (rev (cur f)) :: alts f) with
  | [] => Empty
  | r :: rs => alt_of r rs
  end.

Definition push (r : regex) (quantifiable : bool) (f : frame) : frame :=
  {| alts := alts f; cur := r :: cur f; rep := quantifiable |}.

Definition postfix (op : regex -> regex) (f : frame) : option frame :=
  match cur f, rep f with
  | r :: rest, true => Some {| alts := alts f; cur := op r :: rest; rep := false |}
  | _, _ => None
  end.

Definition is_digit (c : ascii) : bool :=
  (48 <=? JS.code c) && (JS.code c <=? 57).

Definition is_alnum (c : ascii) : bool :=
  let n := JS.code c in
  is_digit c || ((97 <=? n) && (n <=? 122)) || ((65 <=? n) && (n <=? 90)).

(** The characters with a meaning of their own in a pattern. *)
Definition is_meta (c : ascii) : bool :=
  existsb (Ascii.eqb c) (list_ascii_of_string "\^$.|?*+()[]{}").

(** [parse s stack top]: read the pattern [s] with the groups [stack]
    open around the innermost one, [top]. *)
Fixpoint parse (s : list ascii) (stack : list frame) (top : frame) : option regex :=
  match s with
  | [] =>
      match stack with
      | [] => Some (close top)
      | _ :: _ => None
      end
  | c :: t =>
      if Ascii.eqb c "\" then
        match t with
        | e :: t' => if is_alnum e then None else parse t' stack (push (Char e) true top)
        | [] => None
        end
      else if Ascii.eqb c "(" then parse t (top :: stack) empty_frame
      else if Ascii.eqb c ")" then
        match stack with
        | outer :: stack' => parse t stack' (push (close top) true outer)
        | [] => None
        end
      else if Ascii.eqb c "|" then
        parse t stack {| alts := seq_of (rev (cur top)) :: alts top; cur := []; rep := false |}
      else if Ascii.eqb c "*" then
        match postfix Star top with Some f => parse t stack f | None => None end
      else if Ascii.eqb c "+" then
        match postfix (fun r => Seq r (Star r)) top with Some f => parse t stack f | None => None end
      else if Ascii.eqb c "?" then
        match postfix (fun r => Alt r Empty) top with Some f => parse t stack f | None => None end
      else if Ascii.eqb c "." then parse t stack (push Any true top)
      else if Ascii.eqb c "^" then parse t stack (push Bol false top)
      else if Ascii.eqb c "$" then parse t stack (push Eol false top)
      else if is_meta c then None
      else parse t stack (push (Char c) true top)
  end.

Definition compile (pattern : string) : option regex :=
  parse (list_ascii_of_string pattern) [] empty_frame.



Definition lower (c : ascii) : ascii :=
  let n := JS.code c in
  if (65 <=? n) && (n <=? 90) then ascii_of_N (Z.to_N (n + 32)) else c.

Definition same_char (caseless : bool) (a b : ascii) : bool :=
  if caseless then Ascii.eqb (lower a) (lower b) else Ascii.eqb a b.

Definition newline : ascii := ascii_of_N 10.

(** What follows the character that [s] is in the middle of: the bytes
    [10xxxxxx] continue a character. *)
Fixpoint next_char (s : list ascii) : list ascii :=
  match s with
  | x :: t => if (128 <=? JS.code x) && (JS.code x <? 192) then next_char t else s
  | [] => []
  end.

(** [run r s start k]: [r] matches a prefix of [s] and the continuation
    [k] accepts what is left.  [start] tells whether [s] is the whole
    subject.  An iteration of a star has to consume something.  The dot
    takes a whole character, the other items compare byte by byte. *)
Fixpoint run (caseless : bool) (r : regex) (s : list ascii) (start : bool)
    (k : list ascii -> bool -> bool) {struct r} : bool :=
  match r with
  | Empty => k s start
  | Char c =>
      match s with
      | x :: t => same_char caseless c x && k t false
      | [] => false
      end
  | Any =>
      match s with
      | x :: t => negb (Ascii.eqb x newline) && k (next_char t) false
      | [] => false
      end
  | Bol => start && k s start
  | Eol =>
      match s with
      | [] => k s start
      | x :: [] => Ascii.eqb x newline && k s start
      | _ => false
      end
  | Seq r1 r2 => run caseless r1 s start (fun s' st' => run caseless r2 s' st' k)
  | Alt r1 r2 => run caseless r1 s start k || run caseless r2 s start k
  | Star r1 =>
      (fix star (n : nat) (s : list ascii) (start : bool) : bool :=
         k s start ||
         match n with
         | O => false
         | S n' =>
             run caseless r1 s start
               (fun s' st' => (List.length s' <? List.length s)%nat && star n' s' st')
         end) (List.length s) s start
  end.

(** The pattern matches somewhere in the subject. *)
Fixpoint search_from (caseless : bool) (r : regex) (s : list ascii) (start : bool) : bool :=
  run caseless r s start (fun _ _ => true) ||
  match s with
  | [] => false
  | _ :: t => search_from caseless r t false
  end.

Definition search (caseless : bool) (r : regex) (subject : string) : bool :=
  search_from caseless r (list_ascii_of_string subject) true.

(** Option [i] of [$options]. *)
Definition caseless (options : string) : bool :=
  existsb (Ascii.eqb "i") (list_ascii_of_string options).

(** [{ $regex: pattern, $options: options }] on a string;
    [None] when the store refuses the pattern. *)
Definition test (pattern options subject : string) : option bool :=
  match compile pattern with
  | Some r => Some (search (caseless options) r subject)
  | None => None
  end.

End Regex.

(* ================================================================= *)
(** ** The product collection and the store operations *)

(** Modelled from the spec: the schema [./models/Product], which is not
    among the sources.  A product has an integer [id], the strings
    [name], [category], [department] and [brand], and the non-negative
    decimals [retail_price] and [cost]. *)
Module Product.
Record t := {
  id : Z;
  name : string;
  category : string;
  department : string;
  brand : string;
  retail_price : Q;
  cost : Q
}.
End Product.

Module Store.

Definition collection := list Product.t.

(** The value stored under a field name. *)
Inductive value :=
| VNum (q : Q)
| VStr (s : string).

Definition field (f : string) (p : Product.t) : option value :=
  if (f =? "id")%string then Some (VNum (inject_Z (Product.id p)))
  else if (f =? "name")%string then Some (VStr (Product.name p))
  else if (f =? "category")%string then Some (VStr (Product.category p))
  else if (f =? "department")%string then Some (VStr (Product.department p))
  else if (f =? "brand")%string then Some (VStr (Product.brand p))
  else if (f =? "retail_price")%string then Some (VNum (Product.retail_price p))
  else if (f =? "cost")%string then Some (VNum (Product.cost p))
  else None.

(** *** Filters *)

(** The conditions the handlers put on a field. *)
Inductive cond :=
| Regex (pattern options : string)          (* { $regex: .., $options: .. } *)
| Range (gte lte : option JS.number)        (* { $gte: .., $lte: .. }, each key optional *)
| Equals (n : Z).                           (* a plain number *)

(** One key of a filter object. *)
Inductive clause :=
| Field (name : string) (c : cond)
| Or (alternatives : list (string * cond)).  (* $or: [ {name: cond}, .. ] *)

(** A filter object: its keys in insertion order, all of which must hold. *)
Definition filter_doc := list clause.

Definition number_le (a b : JS.number) : bool :=
  match a, b with
  | JS.NaN, _ | _, JS.NaN => false
  | JS.Infinity true, _ => true
  | _, JS.Infinity false => true
  | JS.Infinity false, _ => false
  | _, JS.Infinity true => false
  | JS.Num x, JS.Num y => Qle_bool x y
  end.

Definition cond_ok (c : cond) : bool :=
  match c with
  | Regex pattern _ => match Regex.compile pattern with Some _ => true | None => false end
  | _ => true
  end.

Definition clause_ok (cl : clause) : bool :=
  match cl with
  | Field _ c => cond_ok c
  | Or alternatives => forallb (fun a => cond_ok (snd a)) alternatives
  end.

(** The store checks a filter before it scans: a pattern it refuses
    fails the whole operation. *)
Definition filter_ok (q : filter_doc) : bool := forallb clause_ok q.

Definition holds (c : cond) (v : option value) : bool :=
  match c, v with
  | Regex pattern options, Some (VStr s) =>
      match Regex.test pattern options s with Some b => b | None => false end
  | Range gte lte, Some (VNum x) =>
      match gte with Some lo => number_le lo (JS.Num x) | None => true end &&
      match lte with Some hi => number_le (JS.Num x) hi | None => true end
  | Equals n, Some (VNum x) => Qeq_bool x (inject_Z n)
  | _, _ => false
  end.

Definition clause_holds (p : Product.t) (cl : clause) : bool :=
  match cl with
  | Field f c => holds c (field f p)
  | Or alternatives => existsb (fun a => holds (snd a) (field (fst a) p)) alternatives
  end.

Definition matches (q : filter_doc) (p : Product.t) : bool :=
  forallb (clause_holds p) q.

(** *** Ordering *)

(** A sort object: its keys in order, each with [1] or [-1]. *)
Definition sort_doc := list (string * Z).

(** Missing values sort first, then numbers, then strings. *)
Definition compare_value (a b : option value) : comparison :=
  match a, b with
  | None, None => Eq
  | None, Some _ => Lt
  | Some _, None => Gt
  | Some (VNum x), Some (VNum y) => Qcompare x y
  | Some (VNum _), Some (VStr _) => Lt
  | Some (VStr _), Some (VNum _) => Gt
  | Some (VStr x), Some (VStr y) => String.compare x y
  end.

Fixpoint compare_by (s : sort_doc) (p1 p2 : Product.t) : comparison :=
  match s with
  | [] => Eq
  | (f, dir) :: s' =>
      match compare_value (field f p1) (field f p2) with
      | Eq => compare_by s' p1 p2
      | c => if dir <? 0 then CompOpp c else c
      end
  end.

Fixpoint insert (s : sort_doc) (x : Product.t) (l : list Product.t) : list Product.t :=
  match l with
  | [] => [x]
  | y :: t =>
      match compare_by s x y with
      | Gt => y :: insert s x t
      | _ => x :: l
      end
  end.

(** The sort of the store.  Among products with equal keys the store
    promises no order; here they keep their natural order. *)
Definition sort_by (s : sort_doc) (l : list Product.t) : list Product.t :=
  fold_right (insert s) [] l.

(** *** Cursor stages *)

Definition skip_stage (n : Z) (l : list Product.t) : list Product.t :=
  skipn (Z.to_nat n) l.

(** A limit of [0] is no limit; a negative limit counts as its
    absolute value (the cap of a single batch is not modelled). *)
Definition limit_stage (n : Z) (l : list Product.t) : list Product.t :=
  if n =? 0 then l else firstn (Z.to_nat (Z.abs n)) l.

Definition stage {A} (f : A -> list Product.t -> list Product.t) (o : option A)
    (l : list Product.t) : list Product.t :=
  match o with
  | Some a => f a l
  | None => l
  end.

(** *** Aggregation *)

Definition value_eq_dec (a b : value) : {a = b} + {a <> b}.
Proof.
  decide equality.
  - decide equality; [apply Pos.eq_dec | apply Z.eq_dec].
  - apply string_dec.
Defined.

Definition values (f : string) (coll : collection) : list value :=
  flat_map (fun p => match field f p with Some v => [v] | None => [] end) coll.

Definition distinct_values (f : string) (coll : collection) : list value :=
  nodup value_eq_dec (values f coll).

Definition Qsum (l : list Q) : Q := fold_right Qplus 0%Q l.

(** [$avg]: the sum of the values, as a number, divided by how many
    they are. *)
Definition Qavg (l : list Q) : Q :=
  JS.div (JS.fl (Qsum l)) (inject_Z (Z.of_nat (List.length l))).

Definition Qleast (x : Q) (l : list Q) : Q :=
  fold_left (fun m y => if Qle_bool y m then y else m) l x.

Definition Qgreatest (x : Q) (l : list Q) : Q :=
  fold_left (fun m y => if Qle_bool m y then y else m) l x.

(** The document of the [$group] stage with [_id: null]. *)
Record group_doc := {
  avgPrice : Q; minPrice : Q; maxPrice : Q;
  avgCost : Q; minCost : Q; maxCost : Q
}.

(** One group over the whole collection; no document when it is empty. *)
Definition group_all (coll : collection) : list group_doc :=
  match coll with
  | [] => []
  | p :: rest =>
      let prices := map Product.retail_price coll in
      let costs := map Product.cost coll in
      [ {| avgPrice := Qavg prices;
           minPrice := Qleast (Product.retail_price p) (map Product.retail_price rest);
           maxPrice := Qgreatest (Product.retail_price p) (map Product.retail_price rest);
           avgCost := Qavg costs;
           minCost := Qleast (Product.cost p) (map Product.cost rest);
           maxCost := Qgreatest (Product.cost p) (map Product.cost rest) |} ]
  end.

(** *** Calls and their trace *)

(** A call that reached the store. *)
Inductive call :=
| find (q : filter_doc) (sort : option sort_doc) (skip limit : option Z)
| countDocuments (q : filter_doc)
| findOne (q : filter_doc)
| distinct (f : string)
| aggregate.

(** A computation that talks to the store: it reads the collection,
    appends to the trace of calls, and yields a value or fails
    ([None]: a rejected promise). *)
Definition M (A : Type) : Type := collection -> list call -> option A * list call.

Definition ret {A} (a : A) : M A := fun _ tr => (Some a, tr).

Definition bind {A B} (m : M A) (f : A -> M B) : M B :=
  fun coll tr =>
    match m coll tr with
    | (Some a, tr') => f a coll tr'
    | (None, tr') => (None, tr')
    end.

(** [Promise.all([a, b])]: both calls are issued before either result is
    awaited; the pair fails when one of them does. *)
Definition all2 {A B} (a : M A) (b : M B) : M (A * B) :=
  fun coll tr =>
    let (ra, tr1) := a coll tr in
    let (rb, tr2) := b coll tr1 in
    (match ra, rb with
     | Some x, Some y => Some (x, y)
     | _, _ => None
     end, tr2).

Definition guarded {A} (q : filter_doc) (a : A) : option A :=
  if filter_ok q then Some a else None.

(** [Product.find(q).sort(..).skip(..).limit(..).lean()] *)
Definition Product_find (q : filter_doc) (sort : option sort_doc)
    (skip limit : option Z) : M (list Product.t) :=
  fun coll tr =>
    (guarded q
       (stage limit_stage limit
          (stage skip_stage skip
             (stage sort_by sort (filter (matches q) coll)))),
     tr ++ [find q sort skip limit]).

(** [Product.countDocuments(q)] *)
Definition Product_countDocuments (q : filter_doc) : M Z :=
  fun coll tr =>
    (guarded q (Z.of_nat (List.length (filter (matches q) coll))),
     tr ++ [countDocuments q]).

(** [Product.findOne(q).lean()]: [Some None] is [null]. *)
Definition Product_findOne (q : filter_doc) : M (option Product.t) :=
  fun coll tr =>
    (guarded q (List.find (matches q) coll), tr ++ [findOne q]).

(** [Product.distinct(f)] *)
Definition Product_distinct (f : string) : M (list value) :=
  fun coll tr => (Some (distinct_values f coll), tr ++ [distinct f]).

(** [Product.aggregate([{ $group: .. }])] with the pipeline of the
    statistics handler. *)
Definition Product_aggregate : M (list group_doc) :=
  fun coll tr => (Some (group_all coll), tr ++ [aggregate]).

End Store.

Declare Scope store_scope.
Delimit Scope store_scope with store.
Notation "x <- m ;; k" := (Store.bind m (fun x => k))
  (at level 61, m at next level, right associativity) : store_scope.
Notation "' p <- m ;; k" := (Store.bind m (fun p => k))
  (at level 61, p pattern, m at next level, right associativity) : store_scope.

(* ================================================================= *)
(** ** Requests and responses *)

(** [req.query] of [GET /api/products]. *)
Module Query.
Record t := {
  page : option string;
  limit : option string;
  category : option string;
  department : option string;
  brand : option string;
  minPrice : option string;
  maxPrice : option string;
  search : option string;
  sortBy : option string;
  sortOrder : option string
}.
Definition empty : t :=
  {| page := None; limit := None; category := None; department := None;
     brand := None; minPrice := None; maxPrice := None; search := None;
     sortBy := None; sortOrder := None |}.
End Query.

Module Pagination.
Record t := {
  currentPage : Z;
  totalPages : Z;
  totalCount : Z;
  limit : Z;
  hasNextPage : bool;
  hasPrevPage : bool;
  nextPage : option Z;       (* [None] is [null] *)
  prevPage : option Z
}.
End Pagination.

(** The [filters] object echoed by the list handler. *)
Module Filters.
Record t := {
  category : option string;
  department : option string;
  brand : option string;
  minPrice : option JS.number;  (* [None] is [null] *)
  maxPrice : option JS.number;
  search : option string;
  sortBy : string;
  sortOrder : string
}.
End Filters.

Module Range.
Record t := { min : Q; max : Q; average : Q }.
End Range.

Module Stats.
Record t := {
  totalProducts : Z;
  uniqueCategories : Z;
  uniqueDepartments : Z;
  uniqueBrands : Z;
  priceRange : Range.t;
  costRange : Range.t
}.
End Stats.

(** The JSON object of a response, next to its [success] flag. *)
Inductive body :=
| Error (error : string)
| Listing (data : list Product.t) (pagination : Pagination.t) (filters : Filters.t)
| Single (data : Product.t)
| Found (data : list Product.t) (count : Z) (searchTerm : string)
| Statistics (data : Stats.t).

Record response := { status : Z; success : bool; json : body }.

(** [res.status(code).json({ success: false, error })] *)
Definition failure (code : Z) (error : string) : response :=
  {| status := code; success := false; json := Error error |}.

(** [res.json({ success: true, .. })] *)
Definition ok (b : body) : response :=
  {| status := 200; success := true; json := b |}.

(** What a handler does with a collection: the response it sends and
    the calls it made to the store. *)
Definition handler := Store.collection -> response * list Store.call.

(** A response sent before any call to the store. *)
Definition send (r : response) : handler := fun _ => (r, []).

(** [try { .. } catch (error) { res.status(500).. }] around the calls to
    the store. *)
Definition try_catch (m : Store.M response) (on_error : response) : handler :=
  fun coll =>
    match m coll [] with
    | (Some r, tr) => (r, tr)
    | (None, tr) => (on_error, tr)
    end.

(* ================================================================= *)
(** ** The handlers *)

Local Open Scope store_scope.

(** [v || d] on a query-string value. *)
Definition or_string (v : option string) (d : string) : string :=
  match v with
  | Some s => if JS.truthy_string s then s else d
  | None => d
  end.

(** [v ? parseFloat(v) : null] *)
Definition price_of (v : option string) : option JS.number :=
  match v with
  | Some s => if JS.truthy_string s then Some (JS.parseFloat s) else None
  | None => None
  end.

(** ToBoolean on a price that is a number or [null]. *)
Definition truthy_price (v : option JS.number) : bool :=
  match v with
  | Some n => JS.truthy_number n
  | None => false
  end.

(** [if (v) query.f = { $regex: v, $options: 'i' }] *)
Definition regex_clause (f : string) (v : option string) : Store.filter_doc :=
  match v with
  | Some s => if JS.truthy_string s then [Store.Field f (Store.Regex s "i")] else []
  | None => []
  end.

(** The three alternatives of the free-text search. *)
Definition search_alternatives (s : string) : list (string * Store.cond) :=
  [ ("name", Store.Regex s "i");
    ("category", Store.Regex s "i");
    ("brand", Store.Regex s "i") ].

(** The [query] object of the list handler. *)
Definition build_query (category department brand search : option string)
    (minPrice maxPrice : option JS.number) : Store.filter_doc :=
  regex_clause "category" category
  ++ regex_clause "department" department
  ++ regex_clause "brand" brand
  ++ match search with
     | Some s => if JS.truthy_string s then [Store.Or (search_alternatives s)] else []
     | None => []
     end
  ++ (if truthy_price minPrice || truthy_price maxPrice then
        [Store.Field "retail_price"
           (Store.Range (if truthy_price minPrice then minPrice else None)
                        (if truthy_price maxPrice then maxPrice else None))]
      else []).

(** [const sort = {}; sort[sortBy] = sortOrder].  Assigning a number to
    the key [__proto__] of an object leaves it without keys. *)
Definition build_sort (sortBy : string) (sortOrder : Z) : Store.sort_doc :=
  if (sortBy =? "__proto__")%string then [] else [(sortBy, sortOrder)].

Definition page_of (q : Query.t) : Z := JS.or_default (JS.parseInt (Query.page q)) 1.
Definition limit_of (q : Query.t) : Z := JS.or_default (JS.parseInt (Query.limit q)) 20.
Definition sortBy_of (q : Query.t) : string := or_string (Query.sortBy q) "id".
Definition sortOrder_of (q : Query.t) : Z :=
  match Query.sortOrder q with
  | Some s => if (s =? "desc")%string then -1 else 1
  | None => 1
  end.

Definition query_of (q : Query.t) : Store.filter_doc :=
  build_query (Query.category q) (Query.department q) (Query.brand q) (Query.search q)
    (price_of (Query.minPrice q)) (price_of (Query.maxPrice q)).

Definition invalid_pagination : response :=
  failure 400 "Invalid pagination parameters. Page must be >= 1, limit must be between 1-100".

(** [app.get('/api/products', ..)] *)
Definition list_products (req : Query.t) : handler :=
  let page := page_of req in
  let limit := limit_of req in
  let category := Query.category req in
  let department := Query.department req in
  let brand := Query.brand req in
  let minPrice := price_of (Query.minPrice req) in
  let maxPrice := price_of (Query.maxPrice req) in
  let search := Query.search req in
  let sortBy := sortBy_of req in
  let sortOrder := sortOrder_of req in
  if (page <? 1) || (limit <? 1) || (limit >? 100) then send invalid_pagination
  else
    let query := build_query category department brand search minPrice maxPrice in
    let sort := build_sort sortBy sortOrder in
    (* the product is kept as it is: from [2^53] on, where the runtime
       would round it, it is past the last document of a collection *)
    let skip := (page - 1) * limit in
    try_catch
      ('(products, totalCount) <-
          Store.all2 (Store.Product_find query (Some sort) (Some skip) (Some limit))
                     (Store.Product_countDocuments query) ;;
       (* the quotient of a count below [2^53] by a limit of at most 100 has
          the ceiling of its binary64 number *)
       let totalPages := JS.Math_ceil (Qdiv (inject_Z totalCount) (inject_Z limit)) in
       let hasNextPage := page <? totalPages in
       let hasPrevPage := page >? 1 in
       Store.ret (ok (Listing products
         {| Pagination.currentPage := page;
            Pagination.totalPages := totalPages;
            Pagination.totalCount := totalCount;
            Pagination.limit := limit;
            Pagination.hasNextPage := hasNextPage;
            Pagination.hasPrevPage := hasPrevPage;
            Pagination.nextPage := if hasNextPage then Some (JS.round (page + 1)) else None;
            Pagination.prevPage := if hasPrevPage then Some (JS.round (page - 1)) else None |}
         {| Filters.category := category;
            Filters.department := department;
            Filters.brand := brand;
            Filters.minPrice := minPrice;
            Filters.maxPrice := maxPrice;
            Filters.search := search;
            Filters.sortBy := sortBy;
            Filters.sortOrder := if sortOrder =? 1 then "asc" else "desc" |})))
      (failure 500 "Internal server error while fetching products").

(** The message of the 404 response: [`Product with ID ${id} not found`]. *)
Definition not_found_message (id : Z) : string :=
  "Product with ID " ++ JS.toString id ++ " not found".

(** [app.get('/api/products/:id', ..)]; [productId] is [req.params.id]. *)
Definition get_product (productId : string) : handler :=
  if negb (JS.all_digits productId) then
    send (failure 400 "Invalid product ID format. ID must be a number")
  else
    match JS.parseInt_string productId with
    | Some id =>
        try_catch
          (product <- Store.Product_findOne [Store.Field "id" (Store.Equals id)] ;;
           match product with
           | None => Store.ret (failure 404 (not_found_message id))
           | Some p => Store.ret (ok (Single p))
           end)
          (failure 500 "Internal server error while fetching product")
    | None =>
        (* not reached: a string of digits parses *)
        send (failure 500 "Internal server error while fetching product")
    end.

(** [app.get('/api/products/search/:term', ..)]; [searchTerm] is
    [req.params.term] and [limit_param] is [req.query.limit]. *)
Definition search_products (searchTerm : string) (limit_param : option string) : handler :=
  let limit := JS.or_default (JS.parseInt limit_param) 10 in
  if negb (JS.truthy_string searchTerm)
     || (Z.of_nat (JS.length (JS.trim searchTerm)) <? 2) then
    send (failure 400 "Search term must be at least 2 characters long")
  else
    try_catch
      (products <-
         Store.Product_find [Store.Or (search_alternatives searchTerm)] None None (Some limit) ;;
       Store.ret (ok (Found products (Z.of_nat (List.length products)) searchTerm)))
      (failure 500 "Internal server error while searching products").

(** [x || 0] on a number that may be [undefined]. *)
Definition or_zero (x : option Q) : Q :=
  match x with
  | Some q => if Qnum q =? 0 then 0%Q else q
  | None => 0%Q
  end.

(** [Math.round((x || 0) * 100) / 100] *)
Definition round2 (x : option Q) : Q :=
  JS.div (inject_Z (JS.Math_round (JS.mul (or_zero x) 100))) 100.

(** [app.get('/api/stats', ..)] *)
Definition get_stats : handler :=
  try_catch
    ('(totalProducts, (categories, (departments, (brands, priceStats)))) <-
        Store.all2 (Store.Product_countDocuments [])
          (Store.all2 (Store.Product_distinct "category")
             (Store.all2 (Store.Product_distinct "department")
                (Store.all2 (Store.Product_distinct "brand")
                   Store.Product_aggregate))) ;;
     let first := hd_error priceStats in
     Store.ret (ok (Statistics
       {| Stats.totalProducts := totalProducts;
          Stats.uniqueCategories := Z.of_nat (List.length categories);
          Stats.uniqueDepartments := Z.of_nat (List.length departments);
          Stats.uniqueBrands := Z.of_nat (List.length brands);
          Stats.priceRange :=
            {| Range.min := or_zero (option_map Store.minPrice first);
               Range.max := or_zero (option_map Store.maxPrice first);
               Range.average := round2 (option_map Store.avgPrice first) |};
          Stats.costRange :=
            {| Range.min := or_zero (option_map Store.minCost first);
               Range.max := or_zero (option_map Store.maxCost first);
               Range.average := round2 (option_map Store.avgCost first) |} |})))
    (failure 500 "Internal server error while fetching statistics").

(* ================================================================= *)
(** ** The notions the specification is written in *)

Module Spec.

(** [needle] occurs in [hay], both read in lower case. *)
Fixpoint includes (needle hay : list ascii) : bool :=
  JS.starts_with needle hay ||
  match hay with
  | [] => false
  | _ :: t => includes needle t
  end.

Definition toLowerCase (s : string) : list ascii :=
  map Regex.lower (list_ascii_of_string s).

(** The case-insensitive substring match of the specification. *)
Definition contains_ci (needle hay : string) : bool :=
  includes (toLowerCase needle) (toLowerCase hay).



(** A parameter is active when it is present and non-empty. *)
Definition active (v : option string) : option string :=
  match v with
  | Some (String c s) => Some (String c s)
  | _ => None
  end.

(** The conjunct of one of [category], [department], [brand]. *)
Definition field_conjunct (v : option string) (text : string) : bool :=
  match active v with
  | Some s => contains_ci s text
  | None => true
  end.




(** The disjunction of the term search. *)
Definition term_match (term : string) (p : Product.t) : bool :=
  contains_ci term (Product.name p) || contains_ci term (Product.category p)
  || contains_ci term (Product.brand p).

(** The conjunct of [search]: a disjunction over three fields. *)
Definition search_conjunct (v : option string) (p : Product.t) : bool :=
  match active v with
  | Some s => term_match s p
  | None => true
  end.

(** The bound a price parameter stands for: none when it is absent, not
    a number, or zero. *)
Definition bound (v : option string) : option JS.number :=
  match v with
  | None => None
  | Some s =>
      match JS.parseFloat s with
      | JS.NaN => None
      | JS.Num q => if Qeq_bool q 0 then None else Some (JS.Num q)
      | JS.Infinity b => Some (JS.Infinity b)
      end
  end.

Definition at_least (lo : option JS.number) (p : Product.t) : bool :=
  match lo with
  | Some n => Store.number_le n (JS.Num (Product.retail_price p))
  | None => true
  end.

Definition at_most (hi : option JS.number) (p : Product.t) : bool :=
  match hi with
  | Some n => Store.number_le (JS.Num (Product.retail_price p)) n
  | None => true
  end.



(** The filter of a list request, as the specification words it. *)
Definition filter (req : Query.t) (p : Product.t) : bool :=
  field_conjunct (Query.category req) (Product.category p)
  && field_conjunct (Query.department req) (Product.department p)
  && field_conjunct (Query.brand req) (Product.brand p)
  && search_conjunct (Query.search req) p
  && at_least (bound (Query.minPrice req)) p
  && at_most (bound (Query.maxPrice req)) p.

(** [a] may stand before [b] under an ordering directive. *)
Definition in_order (s : Store.sort_doc) (a b : Product.t) : Prop :=
  Store.compare_by s a b <> Gt.

(** The window [[skip, skip + limit)] of a sequence. *)
Definition window {A} (skip limit : Z) (l : list A) : list A :=
  firstn (Z.to_nat limit) (skipn (Z.to_nat skip) l).

(** The integer a pagination parameter asks for: the one its text
    denotes, digit by digit, and [d] when the parameter is absent, not a
    number or 0. *)
Definition requested (v : option string) (d : Z) : Z :=
  match v with
  | Some s =>
      match JS.mathInt s with
      | Some 0 | None => d
      | Some n => n
      end
  | None => d
  end.

(** The field a request asks to sort by, and whether it asks for the
    descending order. *)
Definition sort_field (req : Query.t) : string :=
  match Query.sortBy req with
  | Some (String c s) => String c s
  | _ => "id"
  end.

Definition descending (req : Query.t) : bool :=
  match Query.sortOrder req with
  | Some s => (s =? "desc")%string
  | None => false
  end.

(** [a] may stand before [b] in a sequence sorted by the field [f]: the
    value of [b] is not smaller than that of [a], or not greater in the
    descending order. *)
Definition ordered (f : string) (desc : bool) (a b : Product.t) : Prop :=
  if desc
  then Store.compare_value (Store.field f b) (Store.field f a) <> Gt
  else Store.compare_value (Store.field f a) (Store.field f b) <> Gt.

End Spec.

(** The request with one parameter replaced. *)
Definition with_page (v : option string) (q : Query.t) : Query.t :=
  {| Query.page := v; Query.limit := Query.limit q; Query.category := Query.category q;
     Query.department := Query.department q; Query.brand := Query.brand q;
     Query.minPrice := Query.minPrice q; Query.maxPrice := Query.maxPrice q;
     Query.search := Query.search q; Query.sortBy := Query.sortBy q;
     Query.sortOrder := Query.sortOrder q |}.

Definition with_limit (v : option string) (q : Query.t) : Query.t :=
  {| Query.page := Query.page q; Query.limit := v; Query.category := Query.category q;
     Query.department := Query.department q; Query.brand := Query.brand q;
     Query.minPrice := Query.minPrice q; Query.maxPrice := Query.maxPrice q;
     Query.search := Query.search q; Query.sortBy := Query.sortBy q;
     Query.sortOrder := Query.sortOrder q |}.

Definition with_category (v : option string) (q : Query.t) : Query.t :=
  {| Query.page := Query.page q; Query.limit := Query.limit q; Query.category := v;
     Query.department := Query.department q; Query.brand := Query.brand q;
     Query.minPrice := Query.minPrice q; Query.maxPrice := Query.maxPrice q;
     Query.search := Query.search q; Query.sortBy := Query.sortBy q;
     Query.sortOrder := Query.sortOrder q |}.

Definition with_sortBy (v : option string) (q : Query.t) : Query.t :=
  {| Query.page := Query.page q; Query.limit := Query.limit q; Query.category := Query.category q;
     Query.department := Query.department q; Query.brand := Query.brand q;
     Query.minPrice := Query.minPrice q; Query.maxPrice := Query.maxPrice q;
     Query.search := Query.search q; Query.sortBy := v;
     Query.sortOrder := Query.sortOrder q |}.


(** A small catalog for the examples. *)
Definition shoe : Product.t :=
  {| Product.id := 42; Product.name := "Trail Runner"; Product.category := "Shoes";
     Product.department := "Men"; Product.brand := "Nike";
     Product.retail_price := 59.99; Product.cost := 30.5 |}.

Definition jeans : Product.t :=
  {| Product.id := 7; Product.name := "Slim Jeans"; Product.category := "Jeans";
     Product.department := "Women"; Product.brand := "Levi's";
     Product.retail_price := 80; Product.cost := 41.125 |}.

Definition cap : Product.t :=
  {| Product.id := 19; Product.name := "Canvas Cap"; Product.category := "Accessories";
     Product.department := "Men"; Product.brand := "Nike";
     Product.retail_price := 15; Product.cost := 6.25 |}.

Definition catalog : Store.collection := [shoe; jeans; cap].

(** The product [p] under another id. *)
Definition renumbered (id : Z) (p : Product.t) : Product.t :=
  {| Product.id := id; Product.name := Product.name p;
     Product.category := Product.category p; Product.department := Product.department p;
     Product.brand := Product.brand p; Product.retail_price := Product.retail_price p;
     Product.cost := Product.cost p |}.


(* ================================================================= *)
(** ** The endpoints of distinct values *)

Module JSArray.

Fixpoint insert (x : string) (l : list string) : list string :=
  match l with
  | [] => [x]
  | y :: t =>
      match String.compare x y with
      | Gt => y :: insert x t
      | _ => x :: l
      end
  end.

(** [Array.prototype.sort()] without a comparison function, on an array
    of strings: ascending in the order of the code units. *)
Definition sort (l : list string) : list string := fold_right insert [] l.

End JSArray.

(** The response of an endpoint that lists the values of a field. *)
Module Names.
Inductive body :=
| Error (error : string)
| Values (data : list string) (count : Z).

Record response := { status : Z; success : bool; json : body }.

Definition handler := Store.collection -> response * list Store.call.
End Names.

(** The values of a field as strings.  The four text fields of a
    product only hold strings, so nothing is dropped for them. *)
Definition texts (vs : list Store.value) : list string :=
  flat_map (fun v => match v with Store.VStr s => [s] | Store.VNum _ => [] end) vs.

(** [try { .. } catch (error) { res.status(500).. }] in these endpoints. *)
Definition try_catch_names (m : Store.M Names.response) (on_error : Names.response)
    : Names.handler :=
  fun coll =>
    match m coll [] with
    | (Some r, tr) => (r, tr)
    | (None, tr) => (on_error, tr)
    end.

Definition names_failure (code : Z) (error : string) : Names.response :=
  {| Names.status := code; Names.success := false; Names.json := Names.Error error |}.

(** [app.get('/api/categories', ..)]: the array is sorted in place
    before its length is read. *)
Definition get_categories : Names.handler :=
  try_catch_names
    (categories <- Store.Product_distinct "category" ;;
     Store.ret
       {| Names.status := 200; Names.success := true;
          Names.json := Names.Values (JSArray.sort (texts categories))
                          (Z.of_nat (List.length categories)) |})
    (names_failure 500 "Internal server error while fetching categories").

(** [app.get('/api/brands', ..)] *)
Definition get_brands : Names.handler :=
  try_catch_names
    (brands <- Store.Product_distinct "brand" ;;
     Store.ret
       {| Names.status := 200; Names.success := true;
          Names.json := Names.Values (JSArray.sort (texts brands))
                          (Z.of_nat (List.length brands)) |})
    (names_failure 500 "Internal server error while fetching brands").

(* ================================================================= *)
(** ** The client of the front end ([services/api.js]) *)

Module Client.

(** The outcome of an [async] function: the value it returns, or the
    message of the [Error] it throws. *)
Inductive result (A : Type) :=
| Returned (value : A)
| Thrown (message : string).
Arguments Returned {A} value.
Arguments Thrown {A} message.

(** [response.data]: the JSON object of a reply. *)
Definition data (r : response) : bool * body := (success r, json r).

(** [api.get(url)] seen from the reply of the server ([None]: no reply,
    as on a timeout).  The promise resolves on a status from 200 to 299
    and is rejected otherwise, with the reply, if any, as
    [error.response]; the two interceptors pass both on. *)
Definition api_get (reply : option response) : response + option response :=
  match reply with
  | Some r => if (200 <=? status r) && (status r <? 300) then inl r else inr (Some r)
  | None => inr None
  end.

(** [error.response?.data?.error] *)
Definition error_of (error : option response) : option string :=
  match error with
  | Some r => match json r with Error e => Some e | _ => None end
  | None => None
  end.

(** [productsAPI.getProducts] *)
Definition getProducts (reply : option response) : result (bool * body) :=
  match api_get reply with
  | inl response => Returned (data response)
  | inr error => Thrown (or_string (error_of error) "Failed to fetch products")
  end.

End Client.

(* ================================================================= *)
(** ** More notions for the statements *)

(** The products of a reply of the list handler (none in an error). *)
Definition listed (r : response) : list Product.t :=
  match json r with
  | Listing data _ _ => data
  | _ => []
  end.

(** The [totalCount] of a reply of the list handler. *)
Definition counted (r : response) : Z :=
  match json r with
  | Listing _ pg _ => Pagination.totalCount pg
  | _ => 0
  end.



Definition kept_or_dropped (v' v : option string) : Prop := v' = v \/ v' = None.

(** [req'] is [req] with some of its filter parameters left out. *)
Definition fewer_filters (req' req : Query.t) : Prop :=
  kept_or_dropped (Query.category req') (Query.category req) /\
  kept_or_dropped (Query.department req') (Query.department req) /\
  kept_or_dropped (Query.brand req') (Query.brand req) /\
  kept_or_dropped (Query.search req') (Query.search req) /\
  kept_or_dropped (Query.minPrice req') (Query.minPrice req) /\
  kept_or_dropped (Query.maxPrice req') (Query.maxPrice req).

(** A reply is a whole envelope: a success with status 200, or an
    error with [success: false], a message and one of the given codes. *)
Definition envelope (codes : list Z) (r : response) : Prop :=
  match json r with
  | Error e => success r = false /\ e <> "" /\ In (status r) codes
  | _ => success r = true /\ status r = 200
  end.

(** The order of two numbers under a direction ([-1]: descending). *)
Definition directed (direction : Z) (x y : Q) : Prop :=
  if direction <? 0 then Qle y x else Qle x y.

(** The data and the count of a reply of the search handler. *)
Definition found (r : response) : list Product.t * Z :=
  match json r with
  | Found data count _ => (data, count)
  | _ => ([], 0)
  end.

(** The count of a reply of a distinct-values endpoint. *)
Definition names_count (r : Names.response) : Z :=
  match Names.json r with
  | Names.Values _ count => count
  | Names.Error _ => 0
  end.

(** The statistics of a reply of the statistics handler. *)
Definition statistics (r : response) : option Stats.t :=
  match json r with
  | Statistics st => Some st
  | _ => None
  end.


(* ================================================================= *)
(** ** Patterns without special characters *)

Section Literal.

Import Regex.








End Literal.

(* ================================================================= *)
(** ** The list handler, case by case *)

Section ListHandler.

Variable req : Query.t.
Variable coll : Store.collection.

Abbreviation page := (page_of req).
Abbreviation limit := (limit_of req).
Abbreviation query := (query_of req).
Abbreviation sort := (build_sort (sortBy_of req) (sortOrder_of req)).
Abbreviation matching := (List.filter (Store.matches (query_of req)) coll).
Abbreviation calls :=
  [ Store.find (query_of req) (Some (build_sort (sortBy_of req) (sortOrder_of req)))
      (Some ((page_of req - 1) * limit_of req)) (Some (limit_of req));
    Store.countDocuments (query_of req) ].

Lemma validation_test :
  (page <? 1) || (limit <? 1) || (limit >? 100) = false <->
  1 <= page /\ 1 <= limit <= 100.
Proof.
  rewrite !orb_false_iff, !Z.ltb_ge, Z.gtb_ltb, Z.ltb_ge. lia.
Qed.

Lemma list_products_rejected :
  page < 1 \/ limit < 1 \/ 100 < limit ->
  list_products req coll = (invalid_pagination, []).
Proof.
  intros H. unfold list_products. cbv zeta.
  destruct ((page <? 1) || (limit <? 1) || (limit >? 100)) eqn:E.
  - reflexivity.
  - apply validation_test in E. lia.
Qed.

Lemma list_products_refused :
  1 <= page -> 1 <= limit <= 100 -> Store.filter_ok query = false ->
  list_products req coll =
  (failure 500 "Internal server error while fetching products", calls).
Proof.
  intros Hp Hl Hq. unfold list_products. cbv zeta.
  destruct ((page <? 1) || (limit <? 1) || (limit >? 100)) eqn:E.
  - apply not_false_iff_true in E. exfalso. apply E. apply validation_test. lia.
  - unfold try_catch, Store.bind, Store.all2, Store.Product_find,
      Store.Product_countDocuments, Store.guarded.
    fold (query_of req). rewrite Hq. reflexivity.
Qed.

Lemma list_products_served :
  1 <= page -> 1 <= limit <= 100 -> Store.filter_ok query = true ->
  exists pg fl,
    list_products req coll =
    (ok (Listing (Spec.window ((page - 1) * limit) limit (Store.sort_by sort matching)) pg fl),
     calls) /\
    Pagination.currentPage pg = page /\
    Pagination.limit pg = limit /\
    Pagination.totalCount pg = Z.of_nat (List.length matching) /\
    Pagination.totalPages pg =
      JS.Math_ceil (Qdiv (inject_Z (Pagination.totalCount pg)) (inject_Z limit)) /\
    Pagination.hasNextPage pg = (page <? Pagination.totalPages pg) /\
    Pagination.hasPrevPage pg = (page >? 1) /\
    Pagination.nextPage pg =
      (if Pagination.hasNextPage pg then Some (JS.round (page + 1)) else None) /\
    Pagination.prevPage pg =
      (if Pagination.hasPrevPage pg then Some (JS.round (page - 1)) else None) /\
    Filters.sortBy fl = sortBy_of req /\
    Filters.sortOrder fl = (if sortOrder_of req =? 1 then "asc" else "desc").
Proof.
  intros Hp Hl Hq. unfold list_products. cbv zeta.
  destruct ((page <? 1) || (limit <? 1) || (limit >? 100)) eqn:E.
  - apply not_false_iff_true in E. exfalso. apply E. apply validation_test. lia.
  - unfold try_catch, Store.bind, Store.all2, Store.Product_find,
      Store.Product_countDocuments, Store.guarded.
    fold (query_of req). rewrite Hq.
    cbn [Store.stage Store.ret app].
    assert (Hlim : Store.limit_stage limit = firstn (Z.to_nat limit)).
    { unfold Store.limit_stage. destruct (limit =? 0) eqn:E0; [lia|].
      rewrite Z.abs_eq by lia. reflexivity. }
    rewrite Hlim. do 2 eexists. split; [reflexivity|].
    cbn. repeat split; reflexivity.
Qed.

(** The three cases are all there is. *)
Lemma list_products_cases :
  (page < 1 \/ limit < 1 \/ 100 < limit) \/
  (1 <= page /\ 1 <= limit <= 100 /\ Store.filter_ok query = false) \/
  (1 <= page /\ 1 <= limit <= 100 /\ Store.filter_ok query = true).
Proof.
  destruct (Store.filter_ok query); lia.
Qed.

(** A response that reports success comes from the third case. *)
Lemma list_products_success :
  success (fst (list_products req coll)) = true ->
  1 <= page /\ 1 <= limit <= 100 /\ Store.filter_ok query = true.
Proof.
  intros H. destruct list_products_cases as [C | [(Hp & Hl & Hq) | C]].
  - rewrite list_products_rejected in H by exact C. discriminate H.
  - rewrite list_products_refused in H by assumption. discriminate H.
  - exact C.
Qed.

End ListHandler.

(* ================================================================= *)
(** ** Arithmetic and list facts *)

Lemma Math_ceil_bounds a b :
  0 < b ->
  let t := JS.Math_ceil (Qdiv (inject_Z a) (inject_Z b)) in
  (t - 1) * b < a <= t * b.
Proof.
  intros Hb. destruct b as [|p|p]; try lia.
  unfold JS.Math_ceil, Qceiling, Qfloor, Qdiv, Qmult, Qinv, Qopp, inject_Z.
  cbn [Qnum Qden]. rewrite Z.mul_1_r, Pos.mul_1_l.
  pose proof (Z.div_mod (- a) (Z.pos p) ltac:(lia)) as E.
  pose proof (Z.mod_pos_bound (- a) (Z.pos p) ltac:(lia)) as B.
  cbv zeta. nia.
Qed.

Lemma insert_In s x l y : In y (Store.insert s x l) <-> y = x \/ In y l.
Proof.
  induction l as [|z l IH]; cbn [Store.insert].
  - cbn. intuition.
  - destruct (Store.compare_by s x z); cbn [In]; try rewrite IH; cbn [In]; intuition.
Qed.

Lemma insert_length s x l : List.length (Store.insert s x l) = S (List.length l).
Proof.
  induction l as [|z l IH]; cbn [Store.insert].
  - reflexivity.
  - destruct (Store.compare_by s x z); cbn [List.length]; try rewrite IH; reflexivity.
Qed.

Lemma compare_value_antisym a b :
  Store.compare_value b a = CompOpp (Store.compare_value a b).
Proof.
  destruct a as [[x|x]|], b as [[y|y]|]; cbn [Store.compare_value CompOpp]; try reflexivity.
  - symmetry. apply Qcompare_antisym.
  - apply String.compare_antisym.
Qed.

Lemma compare_by_antisym s x y :
  Store.compare_by s y x = CompOpp (Store.compare_by s x y).
Proof.
  induction s as [|[f d] s IH]; cbn [Store.compare_by]; [reflexivity|].
  rewrite (compare_value_antisym (Store.field f x) (Store.field f y)).
  destruct (Store.compare_value (Store.field f x) (Store.field f y)); cbn [CompOpp].
  - exact IH.
  - destruct (d <? 0); reflexivity.
  - destruct (d <? 0); reflexivity.
Qed.

Lemma insert_perm s x l : Permutation (Store.insert s x l) (x :: l).
Proof.
  induction l as [|y l IH]; cbn [Store.insert].
  - apply Permutation_refl.
  - destruct (Store.compare_by s x y); try apply Permutation_refl.
    apply perm_trans with (y :: x :: l); [apply perm_skip; exact IH | apply perm_swap].
Qed.

Lemma sort_by_perm s l : Permutation (Store.sort_by s l) l.
Proof.
  induction l as [|x l IH]; cbn [Store.sort_by fold_right].
  - apply perm_nil.
  - fold (Store.sort_by s l).
    apply perm_trans with (x :: Store.sort_by s l); [apply insert_perm | apply perm_skip; exact IH].
Qed.

Lemma insert_sorted s x l :
  Sorted (Spec.in_order s) l -> Sorted (Spec.in_order s) (Store.insert s x l).
Proof.
  induction l as [|y l IH]; intros H; cbn [Store.insert].
  - repeat constructor.
  - destruct (Store.compare_by s x y) eqn:E.
    + constructor; [exact H|]. constructor. unfold Spec.in_order. rewrite E. discriminate.
    + constructor; [exact H|]. constructor. unfold Spec.in_order. rewrite E. discriminate.
    + inversion H as [|? ? Hl Hy]; subst. constructor; [apply IH; exact Hl|].
      assert (Y : Spec.in_order s y x).
      { unfold Spec.in_order. rewrite compare_by_antisym, E. discriminate. }
      destruct l as [|z l]; cbn [Store.insert].
      * constructor. exact Y.
      * destruct (Store.compare_by s x z); constructor; try exact Y.
        inversion Hy; assumption.
Qed.

(** The sort of the store puts the products in the order of the
    directive. *)
Lemma sort_by_sorted s l : Sorted (Spec.in_order s) (Store.sort_by s l).
Proof.
  induction l as [|x l IH]; cbn [Store.sort_by fold_right].
  - constructor.
  - fold (Store.sort_by s l). apply insert_sorted. exact IH.
Qed.

Lemma sort_by_In s l y : In y (Store.sort_by s l) <-> In y l.
Proof.
  induction l as [|x l IH]; cbn [Store.sort_by fold_right].
  - reflexivity.
  - fold (Store.sort_by s l). rewrite insert_In, IH. cbn [In]. intuition.
Qed.

Lemma sort_by_length s l : List.length (Store.sort_by s l) = List.length l.
Proof.
  induction l as [|x l IH]; cbn [Store.sort_by fold_right].
  - reflexivity.
  - fold (Store.sort_by s l). rewrite insert_length, IH. reflexivity.
Qed.

Lemma window_In {A} skip limit (l : list A) x : In x (Spec.window skip limit l) -> In x l.
Proof.
  unfold Spec.window. intros H.
  rewrite <- (firstn_skipn (Z.to_nat skip) l). apply in_or_app. right.
  rewrite <- (firstn_skipn (Z.to_nat limit) (skipn (Z.to_nat skip) l)).
  apply in_or_app. left. exact H.
Qed.

Lemma window_length {A} skip limit (l : list A) :
  0 <= limit -> Z.of_nat (List.length (Spec.window skip limit l)) <= limit.
Proof.
  intros H. unfold Spec.window.
  pose proof (firstn_le_length (Z.to_nat limit) (skipn (Z.to_nat skip) l)). lia.
Qed.

Lemma window_nth {A} skip limit (l : list A) i :
  nth_error (Spec.window skip limit l) i =
  if (Z.of_nat i <? limit) then nth_error l (Z.to_nat skip + i) else None.
Proof.
  unfold Spec.window. destruct (Z.of_nat i <? limit) eqn:E.
  - apply Z.ltb_lt in E. rewrite nth_error_firstn.
    replace (i <? Z.to_nat limit)%nat with true by (symmetry; apply Nat.ltb_lt; lia).
    apply nth_error_skipn.
  - apply Z.ltb_ge in E. rewrite nth_error_firstn.
    replace (i <? Z.to_nat limit)%nat with false by (symmetry; apply Nat.ltb_ge; lia).
    reflexivity.
Qed.

Lemma window_beyond {A} skip limit (l : list A) :
  0 <= skip -> Z.of_nat (List.length l) <= skip -> Spec.window skip limit l = [].
Proof.
  intros H0 H. unfold Spec.window. rewrite skipn_all2 by lia. apply firstn_nil.
Qed.

Lemma Sorted_skipn {A} (R : A -> A -> Prop) n : forall l,
  Sorted R l -> Sorted R (skipn n l).
Proof.
  induction n as [|n IH]; intros l H; [exact H|].
  destruct l as [|x l]; [constructor|]. cbn [skipn]. apply IH.
  inversion H; assumption.
Qed.

Lemma Sorted_firstn {A} (R : A -> A -> Prop) n : forall l,
  Sorted R l -> Sorted R (firstn n l).
Proof.
  induction n as [|n IH]; intros l H; [constructor|].
  destruct l as [|x l]; [constructor|]. cbn [firstn].
  inversion H as [|? ? Hl Hd]; subst. constructor; [apply IH; exact Hl|].
  destruct n as [|n]; [constructor|].
  destruct Hd as [|y l Hxy]; constructor. exact Hxy.
Qed.

Lemma Sorted_weaken {A} (R R' : A -> A -> Prop) l :
  (forall a b, R a b -> R' a b) -> Sorted R l -> Sorted R' l.
Proof.
  intros W H. induction H as [|x l Hl IH Hd]; constructor; [exact IH|].
  destruct Hd; constructor. apply W. assumption.
Qed.

(** The order of a directive with one key. *)
Lemma in_order_one_key f direction a b :
  Spec.in_order [(f, direction)] a b ->
  if direction <? 0
  then Store.compare_value (Store.field f b) (Store.field f a) <> Gt
  else Store.compare_value (Store.field f a) (Store.field f b) <> Gt.
Proof.
  unfold Spec.in_order. cbn [Store.compare_by].
  rewrite (compare_value_antisym (Store.field f a) (Store.field f b)).
  destruct (Store.compare_value (Store.field f a) (Store.field f b)), (direction <? 0);
    cbn [CompOpp]; congruence.
Qed.

Lemma in_order_number f direction (key : Product.t -> Q) a b :
  f <> "__proto__" ->
  (forall p, Store.field f p = Some (Store.VNum (key p))) ->
  Spec.in_order (build_sort f direction) a b -> directed direction (key a) (key b).
Proof.
  intros N F H. unfold build_sort in H.
  destruct (String.eqb_spec f "__proto__") as [E | _]; [contradiction|].
  apply in_order_one_key in H. rewrite !F in H. unfold directed.
  cbn [Store.compare_value] in H.
  destruct (direction <? 0); apply Qle_alt; exact H.
Qed.










(** The integers up to [2^53] are binary64 numbers. *)
Lemma round_small n : Z.abs n <= 2 ^ 53 -> JS.round n = n.
Proof.
  intros H. destruct (Z.eq_dec (Z.abs n) (2 ^ 53)) as [E | E].
  - assert (C : n = 2 ^ 53 \/ n = - 2 ^ 53) by lia.
    destruct C as [C | C]; rewrite C; reflexivity.
  - unfold JS.round. cbv zeta.
    assert (L : Z.log2 (Z.abs n) - 52 <= 0).
    { destruct (Z.eq_dec (Z.abs n) 0) as [Z0 | Z0]; [rewrite Z0; cbn; lia|].
      assert (Z.log2 (Z.abs n) < 53) by (apply Z.log2_lt_pow2; lia). lia. }
    apply Z.leb_le in L. rewrite L. reflexivity.
Qed.

(** What [JS.round] makes of an integer beyond [2^53]. *)
Lemma round_large_eq n :
  2 ^ 53 < Z.abs n ->
  exists m, JS.round n = Z.sgn n * m /\ 2 ^ 53 <= m.
Proof.
  intros H. unfold JS.round. cbv zeta.
  set (a := Z.abs n) in *. set (u := Z.log2 a - 52).
  assert (L : 53 <= Z.log2 a) by (apply Z.log2_le_pow2; lia).
  assert (U : 1 <= u) by (unfold u; lia).
  destruct (u <=? 0) eqn:T; [apply Z.leb_le in T; lia|].
  eexists. split; [reflexivity|].
  assert (P : 2 <= 2 ^ u).
  { change 2 with (2 ^ 1) at 1. apply Z.pow_le_mono_r; lia. }
  assert (K : 2 ^ 52 <= a / 2 ^ u).
  { apply Z.div_le_lower_bound; [lia|].
    rewrite <- Z.pow_add_r by lia. replace (u + 52) with (Z.log2 a) by (unfold u; lia).
    apply Z.log2_spec. lia. }
  apply Z.min_glb.
  - unfold JS.infinity. apply Z.pow_le_mono_r; lia.
  - destruct (a mod 2 ^ u <? 2 ^ (u - 1)); [nia|].
    destruct (2 ^ (u - 1) <? a mod 2 ^ u); [nia|].
    destruct (Z.even (a / 2 ^ u)); nia.
Qed.

Lemma round_large n : 2 ^ 53 < Z.abs n -> 2 ^ 53 <= Z.abs (JS.round n).
Proof.
  intros H. destruct (round_large_eq n H) as (m & E & M). rewrite E.
  destruct n; cbn [Z.sgn]; lia.
Qed.

(** A number keeps the sign of the integer. *)
Lemma round_positive n : 0 < JS.round n -> 0 < n.
Proof.
  intros H. destruct (Z_le_gt_dec (Z.abs n) (2 ^ 53)) as [S | L].
  - rewrite round_small in H by exact S. exact H.
  - destruct (round_large_eq n) as (m & E & M); [lia|]. rewrite E in H.
    destruct n; cbn [Z.sgn] in H; lia.
Qed.

(* ================================================================= *)
(** ** Pagination: validation, defaults and metadata *)

Lemma or_default_small n d b :
  b <= 1 -> 1 <= d ->
  JS.or_default n d < b <-> exists k, n = Some k /\ k < b /\ k <> 0.
Proof.
  intros Hb Hd. destruct n as [[|k|k]|]; cbn [JS.or_default].
  - split; [lia | intros (k & E & H1 & H2); inversion E; lia].
  - split; [intros H; exists (Z.pos k); repeat split; lia
           | intros (k' & E & H1 & H2); inversion E; lia].
  - split; [intros H; exists (Z.neg k); repeat split; lia
           | intros (k' & E & H1 & H2); inversion E; lia].
  - split; [lia | intros (k & E & _); discriminate E].
Qed.

Lemma or_default_large n d b :
  d <= b -> 0 <= b ->
  b < JS.or_default n d <-> exists k, n = Some k /\ b < k.
Proof.
  intros Hd Hb. destruct n as [[|k|k]|]; cbn [JS.or_default].
  - split; [lia | intros (k & E & H1); inversion E; lia].
  - split; [intros H; exists (Z.pos k); split; [reflexivity | lia]
           | intros (k' & E & H1); inversion E; lia].
  - split; [lia | intros (k' & E & H1); inversion E; lia].
  - split; [lia | intros (k & E & _); discriminate E].
Qed.

(** The pagination parameters of a request are the requested integers,
    as long as these are binary64 numbers. *)
Lemma or_default_requested v d :
  d <> 0 ->
  Z.abs (Spec.requested v d) <= 2 ^ 53 ->
  JS.or_default (JS.parseInt v) d = Spec.requested v d.
Proof.
  intros Hd H. destruct v as [s|]; [|reflexivity].
  unfold JS.parseInt, JS.parseInt_string, Spec.requested in *.
  destruct (JS.mathInt s) as [n|]; [|reflexivity].
  cbn [option_map]. destruct n as [|n|n]; [reflexivity| |];
    rewrite round_small by exact H; reflexivity.
Qed.

Lemma or_default_binary64 v d :
  d <> 0 ->
  Z.abs (JS.or_default (JS.parseInt v) d) < 2 ^ 53 ->
  JS.or_default (JS.parseInt v) d = Spec.requested v d.
Proof.
  intros Hd H. destruct v as [s|]; [|reflexivity].
  unfold JS.parseInt, JS.parseInt_string, Spec.requested in *.
  destruct (JS.mathInt s) as [n|]; [|reflexivity].
  cbn [option_map] in *.
  destruct (Z_le_gt_dec (Z.abs n) (2 ^ 53)) as [S | L].
  - rewrite round_small in * by exact S. destruct n; reflexivity.
  - exfalso. pose proof (round_large n ltac:(lia)) as R.
    destruct (JS.round n) eqn:E; cbn [JS.or_default] in H; lia.
Qed.

Lemma or_default_sign v d :
  0 < d -> 0 < JS.or_default (JS.parseInt v) d -> 0 < Spec.requested v d.
Proof.
  intros Hd H. destruct v as [s|]; [|exact Hd].
  unfold JS.parseInt, JS.parseInt_string, Spec.requested in *.
  destruct (JS.mathInt s) as [n|]; [|exact Hd].
  cbn [option_map] in *.
  destruct n as [|n|n]; [exact Hd | lia |].
  exfalso. destruct (JS.round (Z.neg n)) eqn:E; cbn [JS.or_default] in H; try lia.
  - destruct (Z_le_gt_dec (Z.abs (Z.neg n)) (2 ^ 53)) as [S | L].
    + rewrite round_small in E by exact S. discriminate E.
    + pose proof (round_large (Z.neg n) ltac:(lia)) as R. rewrite E in R. cbn in R. lia.
  - pose proof (round_positive (Z.neg n)) as R. rewrite E in R. lia.
Qed.

Lemma page_of_requested req :
  Spec.requested (Query.page req) 1 <= 2 ^ 53 -> 1 <= page_of req ->
  page_of req = Spec.requested (Query.page req) 1.
Proof.
  intros H P. unfold page_of in *.
  pose proof (or_default_sign (Query.page req) 1 ltac:(lia) ltac:(lia)).
  apply or_default_requested; lia.
Qed.

Lemma limit_of_requested req :
  1 <= limit_of req <= 100 ->
  limit_of req = Spec.requested (Query.limit req) 20.
Proof.
  intros L. unfold limit_of in *. apply or_default_binary64; lia.
Qed.

(** The order of the directive of a request, in the words of the
    request. *)
Lemma in_order_ordered req a b :
  Spec.in_order (build_sort (sortBy_of req) (sortOrder_of req)) a b ->
  Spec.ordered (Spec.sort_field req) (Spec.descending req) a b.
Proof.
  assert (F : sortBy_of req = Spec.sort_field req).
  { unfold sortBy_of, or_string, Spec.sort_field.
    destruct (Query.sortBy req) as [[|c s]|]; reflexivity. }
  assert (D : (sortOrder_of req <? 0) = Spec.descending req).
  { unfold sortOrder_of, Spec.descending.
    destruct (Query.sortOrder req) as [s|]; [|reflexivity].
    destruct (s =? "desc")%string; reflexivity. }
  rewrite F. unfold build_sort, Spec.ordered.
  destruct (String.eqb_spec (Spec.sort_field req) "__proto__") as [E | N].
  - intros _. rewrite E. destruct (Spec.descending req); cbn; discriminate.
  - intros H. apply in_order_one_key in H. rewrite D in H. exact H.
Qed.

(** C1: the claim fails on the code for [page=0] and for [limit=0].
    Neither request is answered 400: each is answered 200 after two
    calls to the store, where the claim and the message of the
    validation ask for a 400 and no call; [limit=101] is answered 400
    without a call, as claimed. *)
Theorem zero_page_or_limit_is_served :
  let by_page := with_page (Some "0") Query.empty in
  let by_limit := with_limit (Some "0") Query.empty in
  let over := with_limit (Some "101") Query.empty in
  JS.parseInt (Query.page by_page) = Some 0 /\
  status (fst (list_products by_page catalog)) = 200 /\
  List.length (snd (list_products by_page catalog)) = 2%nat /\
  JS.parseInt (Query.limit by_limit) = Some 0 /\
  status (fst (list_products by_limit catalog)) = 200 /\
  List.length (snd (list_products by_limit catalog)) = 2%nat /\
  list_products over catalog = (invalid_pagination, []).
Proof.
  vm_compute. repeat split; reflexivity.
Qed.

(** The requests that the validation of the handler turns down: those
    whose [page] is a negative number, or whose [limit] is a negative
    number or one above 100.  They are answered 400 with
    [success: false] before any call to the store, and no other
    request is. *)
Lemma invalid_pagination_is_rejected (req : Query.t) (coll : Store.collection) :
  let r := list_products req coll in
  (status (fst r) = 400 <->
   (exists n, JS.parseInt (Query.page req) = Some n /\ n < 0) \/
   (exists m, JS.parseInt (Query.limit req) = Some m /\ (m < 0 \/ 100 < m))) /\
  (status (fst r) = 400 -> success (fst r) = false /\ snd r = []).
Proof.
  cbv zeta.
  assert (P : page_of req < 1 <-> exists n, JS.parseInt (Query.page req) = Some n /\ n < 0).
  { unfold page_of. rewrite or_default_small by lia.
    split; intros (k & E & H); exists k; split; auto; lia. }
  assert (L1 : limit_of req < 1 <-> exists n, JS.parseInt (Query.limit req) = Some n /\ n < 0).
  { unfold limit_of. rewrite or_default_small by lia.
    split; intros (k & E & H); exists k; split; auto; lia. }
  assert (L2 : 100 < limit_of req <-> exists n, JS.parseInt (Query.limit req) = Some n /\ 100 < n).
  { unfold limit_of. rewrite or_default_large by lia. reflexivity. }
  destruct (list_products_cases req) as [C | [(Hp & Hl & Hq) | (Hp & Hl & Hq)]].
  - rewrite (list_products_rejected req coll C). cbn [fst snd status success invalid_pagination failure].
    split; [|auto]. split; [intros _ | reflexivity].
    destruct C as [C | [C | C]].
    + left. apply P. exact C.
    + right. apply L1 in C. destruct C as (m & E & H). exists m. auto.
    + right. apply L2 in C. destruct C as (m & E & H). exists m. auto.
  - rewrite (list_products_refused req coll Hp Hl Hq). cbn [fst snd status failure].
    split; [|discriminate]. split; [discriminate|].
    intros [C | (m & E & [C | C])].
    + apply P in C. lia.
    + assert (limit_of req < 1) by (apply L1; eauto). lia.
    + assert (100 < limit_of req) by (apply L2; eauto). lia.
  - destruct (list_products_served req coll Hp Hl Hq) as (pg & fl & E & _).
    rewrite E. cbn [fst snd status ok].
    split; [|discriminate]. split; [discriminate|].
    intros [C | (m & E' & [C | C])].
    + apply P in C. lia.
    + assert (limit_of req < 1) by (apply L1; eauto). lia.
    + assert (100 < limit_of req) by (apply L2; eauto). lia.
Qed.

(** The validation on [page=-1], and on a [page] that starts with a
    no-break space (U+00A0), which the runtime skips like any white
    space. *)
Example invalid_pagination_examples :
  list_products (with_page (Some "-1") Query.empty) catalog = (invalid_pagination, []) /\
  (let nbsp := String (ascii_of_nat 194) (String (ascii_of_nat 160) "") in
   JS.parseInt (Some (nbsp ++ "-5")%string) = Some (-5) /\
   list_products (with_page (Some (nbsp ++ "-5")%string) Query.empty) catalog
   = (invalid_pagination, []) /\
   JS.parseInt (Some (nbsp ++ "5")%string) = Some 5).
Proof.
  vm_compute. repeat split; reflexivity.
Qed.

(** C2 does not hold as stated: a page is a binary64 number, and beyond
    [2^53] the neighbours of a page are not numbers.  The request
    [page=9007199254740994] is served with [hasPrevPage] and with
    [prevPage = 9007199254740992], which is [page - 2]. *)
Lemma prevPage_is_a_rounded_number :
  let req := with_page (Some "9007199254740994") Query.empty in
  exists data pg fl,
    json (fst (list_products req catalog)) = Listing data pg fl /\
    Pagination.currentPage pg = 9007199254740994 /\
    Pagination.hasPrevPage pg = true /\
    Pagination.prevPage pg = Some (9007199254740994 - 2).
Proof.
  cbv zeta.
  assert (P : page_of (with_page (Some "9007199254740994") Query.empty) = 9007199254740994)
    by (vm_compute; reflexivity).
  destruct (list_products_served (with_page (Some "9007199254740994") Query.empty) catalog)
    as (pg & fl & E & Hcur & _ & _ & _ & _ & Hv & _ & Hpp & _).
  - rewrite P. lia.
  - vm_compute. split; discriminate.
  - reflexivity.
  - rewrite E. cbn [fst json ok]. eexists _, pg, fl. split; [reflexivity|].
    rewrite P in *. split; [exact Hcur|]. split; [rewrite Hv; reflexivity|].
    rewrite Hpp, Hv. reflexivity.
Qed.

(** C2 (amended): in a successful list response for a page below
    [2^53], with the page and the limit the handler has validated,
    [totalPages] is the ceiling of [totalCount / limit], [hasNextPage]
    says [page < totalPages], [hasPrevPage] says [page > 1], and
    [nextPage] and [prevPage] are [page + 1] and [page - 1] under their
    flag and [null] otherwise. *)
Theorem pagination_metadata (req : Query.t) (coll : Store.collection) :
  page_of req < 2 ^ 53 ->
  success (fst (list_products req coll)) = true ->
  exists data pg fl,
    json (fst (list_products req coll)) = Listing data pg fl /\
    let page := page_of req in
    let limit := limit_of req in
    1 <= page /\ 1 <= limit <= 100 /\
    Pagination.totalPages pg =
      Qceiling (Qdiv (inject_Z (Pagination.totalCount pg)) (inject_Z limit)) /\
    (Pagination.totalPages pg - 1) * limit < Pagination.totalCount pg
      <= Pagination.totalPages pg * limit /\
    (Pagination.hasNextPage pg = true <-> page < Pagination.totalPages pg) /\
    (Pagination.hasPrevPage pg = true <-> page > 1) /\
    Pagination.nextPage pg = (if Pagination.hasNextPage pg then Some (page + 1) else None) /\
    Pagination.prevPage pg = (if Pagination.hasPrevPage pg then Some (page - 1) else None).
Proof.
  intros B H. destruct (list_products_success req coll H) as (Hp & Hl & Hq).
  destruct (list_products_served req coll Hp Hl Hq)
    as (pg & fl & E & _ & _ & Hc & Ht & Hn & Hv & Hnp & Hpp & _).
  rewrite E. cbn [fst json ok]. eexists _, pg, fl. split; [reflexivity|].
  rewrite !round_small in * by lia.
  cbv zeta. repeat split; try lia; try assumption.
  - rewrite Ht. pose proof (Math_ceil_bounds (Pagination.totalCount pg) (limit_of req)) as B'.
    cbv zeta in B'. lia.
  - rewrite Ht. pose proof (Math_ceil_bounds (Pagination.totalCount pg) (limit_of req)) as B'.
    cbv zeta in B'. lia.
  - rewrite Hn. apply Z.ltb_lt.
  - rewrite Hn. apply Z.ltb_lt.
  - rewrite Hv, Z.gtb_ltb. intros K. apply Z.ltb_lt in K. lia.
  - rewrite Hv, Z.gtb_ltb. intros K. apply Z.ltb_lt. lia.
Qed.

(** C2 on the catalog, two products a page: the second page is the
    last one, the first one has a next page. *)
Lemma pagination_metadata_witness :
  (exists data pg fl,
     json (fst (list_products
                  (with_page (Some "2") (with_limit (Some "2") Query.empty)) catalog))
     = Listing data pg fl /\
     Pagination.totalCount pg = 3 /\
     Pagination.totalPages pg = 2 /\
     Pagination.hasNextPage pg = false /\
     Pagination.hasPrevPage pg = true /\
     Pagination.nextPage pg = None /\
     Pagination.prevPage pg = Some 1) /\
  (exists data pg fl,
     json (fst (list_products (with_limit (Some "2") Query.empty) catalog))
     = Listing data pg fl /\
     Pagination.hasNextPage pg = true /\
     Pagination.hasPrevPage pg = false /\
     Pagination.nextPage pg = Some 2 /\
     Pagination.prevPage pg = None).
Proof.
  split.
  - destruct (pagination_metadata
                (with_page (Some "2") (with_limit (Some "2") Query.empty)) catalog)
      as (data & pg & fl & E & _).
    + vm_compute. reflexivity.
    + reflexivity.
    + exists data, pg, fl. split; [exact E|].
      vm_compute in E. inversion E. repeat split; reflexivity.
  - destruct (pagination_metadata (with_limit (Some "2") Query.empty) catalog)
      as (data & pg & fl & E & _).
    + vm_compute. reflexivity.
    + reflexivity.
    + exists data, pg, fl. split; [exact E|].
      vm_compute in E. inversion E. repeat split; reflexivity.
Defined.

(** C3 does not hold as stated: the requested page becomes a binary64
    number.  For [page=9007199254740993] the response has
    [currentPage = 9007199254740992]. *)
Lemma currentPage_is_a_rounded_number :
  let req := with_page (Some "9007199254740993") Query.empty in
  Spec.requested (Query.page req) 1 = 9007199254740993 /\
  exists data pg fl,
    json (fst (list_products req catalog)) = Listing data pg fl /\
    Pagination.currentPage pg = 9007199254740992.
Proof.
  cbv zeta. split; [vm_compute; reflexivity|].
  assert (P : page_of (with_page (Some "9007199254740993") Query.empty) = 9007199254740992)
    by (vm_compute; reflexivity).
  destruct (list_products_served (with_page (Some "9007199254740993") Query.empty) catalog)
    as (pg & fl & E & Hcur & _).
  - rewrite P. lia.
  - vm_compute. split; discriminate.
  - reflexivity.
  - rewrite E. cbn [fst json ok]. eexists _, pg, fl. split; [reflexivity|].
    rewrite Hcur. exact P.
Qed.

(** C3 (amended): in a successful list response for a requested page of
    at most [2^53], [currentPage] is the requested page (1 when none is
    given) and the data is the window [[skip, skip + limit)] with
    [skip = (page - 1) * limit] of a sequence that holds the products
    that pass the filter, each as often as the collection has it, sorted
    by the requested field ([id] when none is given) in the requested
    direction; so the data has at most [limit] items.  [totalCount]
    counts all products that pass the filter, and a page beyond
    [totalPages] has no data. *)
Theorem listing_is_the_requested_window (req : Query.t) (coll : Store.collection) :
  let page := Spec.requested (Query.page req) 1 in
  let limit := Spec.requested (Query.limit req) 20 in
  page <= 2 ^ 53 ->
  success (fst (list_products req coll)) = true ->
  exists data pg fl sorted,
    json (fst (list_products req coll)) = Listing data pg fl /\
    let skip := (page - 1) * limit in
    let filtered := List.filter (Store.matches (query_of req)) coll in
    1 <= page /\ 1 <= limit <= 100 /\
    Permutation sorted filtered /\
    Sorted (Spec.ordered (Spec.sort_field req) (Spec.descending req)) sorted /\
    Pagination.currentPage pg = page /\
    Pagination.limit pg = limit /\
    data = firstn (Z.to_nat limit) (skipn (Z.to_nat skip) sorted) /\
    (forall i : nat,
       nth_error data i =
       if Z.of_nat i <? limit then nth_error sorted (Z.to_nat skip + i) else None) /\
    Z.of_nat (List.length data) <= limit /\
    Pagination.totalCount pg = Z.of_nat (List.length filtered) /\
    (Pagination.totalPages pg < page -> data = []).
Proof.
  cbv zeta. intros B H. destruct (list_products_success req coll H) as (Hp & Hl & Hq).
  destruct (list_products_served req coll Hp Hl Hq)
    as (pg & fl & E & Hcur & Hlim & Hc & Ht & _).
  rewrite E. cbn [fst json ok].
  rewrite <- (page_of_requested req B Hp), <- (limit_of_requested req Hl).
  eexists _, pg, fl, _. split; [reflexivity|].
  repeat split; try lia; try assumption.
  - apply sort_by_perm.
  - eapply Sorted_weaken; [|apply sort_by_sorted]. intros a b. apply in_order_ordered.
  - intros i. apply window_nth.
  - apply window_length. lia.
  - intros Hbeyond. apply window_beyond; [nia|].
    rewrite sort_by_length, <- Hc.
    pose proof (Math_ceil_bounds (Pagination.totalCount pg) (limit_of req)) as B'.
    cbv zeta in B'. rewrite <- Ht in B'. nia.
Qed.

(** C3 on the catalog sorted by price, dearest first, one product a
    page: the second page holds the second dearest product, and the
    fourth page is empty with the count still 3. *)
Lemma listing_is_the_requested_window_witness :
  let by_price v :=
    {| Query.page := Some v; Query.limit := Some "1"; Query.category := None;
       Query.department := None; Query.brand := None; Query.minPrice := None;
       Query.maxPrice := None; Query.search := None; Query.sortBy := Some "retail_price";
       Query.sortOrder := Some "desc" |} in
  (exists data pg fl,
     json (fst (list_products (by_price "2") catalog)) = Listing data pg fl /\
     Pagination.currentPage pg = 2 /\
     data = [shoe] /\
     Pagination.totalCount pg = 3) /\
  (exists data pg fl,
     json (fst (list_products (by_price "4") catalog)) = Listing data pg fl /\
     Pagination.currentPage pg = 4 /\
     data = [] /\
     Pagination.totalCount pg = 3).
Proof.
  cbv zeta. split.
  - match goal with
    | |- exists data pg fl, json (fst (list_products ?r catalog)) = _ /\ _ =>
        destruct (listing_is_the_requested_window r catalog)
          as (data & pg & fl & sorted & E & _)
    end.
    + vm_compute. discriminate.
    + reflexivity.
    + exists data, pg, fl. split; [exact E|].
      vm_compute in E. inversion E. repeat split; reflexivity.
  - match goal with
    | |- exists data pg fl, json (fst (list_products ?r catalog)) = _ /\ _ =>
        destruct (listing_is_the_requested_window r catalog)
          as (data & pg & fl & sorted & E & _)
    end.
    + vm_compute. discriminate.
    + reflexivity.
    + exists data, pg, fl. split; [exact E|].
      vm_compute in E. inversion E. repeat split; reflexivity.
Defined.

(** C10: when [page] is absent, not a number or 0 the handler goes on
    with page 1, and when [limit] is absent, not a number or 0 it goes on
    with limit 20: the request is answered exactly like the one that
    spells the default out, and with both the store is asked for the
    window [[0, 20)] instead of the request being rejected. *)
Theorem pagination_defaults (req : Query.t) (coll : Store.collection) :
  let defaulted v := JS.parseInt v = None \/ JS.parseInt v = Some 0 in
  (defaulted (Query.page req) ->
     page_of req = 1 /\
     list_products req coll = list_products (with_page (Some "1") req) coll) /\
  (defaulted (Query.limit req) ->
     limit_of req = 20 /\
     list_products req coll = list_products (with_limit (Some "20") req) coll) /\
  (defaulted (Query.page req) -> defaulted (Query.limit req) ->
     status (fst (list_products req coll)) <> 400 /\
     exists q s,
       snd (list_products req coll) =
       [Store.find q (Some s) (Some 0) (Some 20); Store.countDocuments q]).
Proof.
  cbv zeta.
  assert (P : JS.parseInt (Query.page req) = None \/ JS.parseInt (Query.page req) = Some 0 ->
              page_of req = 1).
  { unfold page_of. intros [E | E]; rewrite E; reflexivity. }
  assert (L : JS.parseInt (Query.limit req) = None \/ JS.parseInt (Query.limit req) = Some 0 ->
              limit_of req = 20).
  { unfold limit_of. intros [E | E]; rewrite E; reflexivity. }
  split; [|split].
  - intros D. split; [exact (P D)|].
    unfold list_products. rewrite (P D). reflexivity.
  - intros D. split; [exact (L D)|].
    unfold list_products. rewrite (L D). reflexivity.
  - intros Dp Dl. specialize (P Dp). specialize (L Dl).
    destruct (Store.filter_ok (query_of req)) eqn:Hq.
    + destruct (list_products_served req coll) as (pg & fl & E & _); try lia; try exact Hq.
      rewrite E, P, L. cbn [fst snd status ok]. split; [discriminate|]. eauto.
    + rewrite (list_products_refused req coll) by (try lia; exact Hq).
      rewrite P, L. cbn [fst snd status failure]. split; [discriminate|]. eauto.
Qed.

(** C10 on a request without parameters and on one with
    [page=abc&limit=0]. *)
Lemma pagination_defaults_witness :
  list_products Query.empty catalog
  = list_products (with_page (Some "1") Query.empty) catalog /\
  (let req := with_page (Some "abc") (with_limit (Some "0") Query.empty) in
   status (fst (list_products req catalog)) <> 400).
Proof.
  split.
  - apply (pagination_defaults Query.empty catalog). left. reflexivity.
  - apply (pagination_defaults
             (with_page (Some "abc") (with_limit (Some "0") Query.empty)) catalog).
    + left. reflexivity.
    + right. reflexivity.
Defined.

(* ================================================================= *)
(** ** The filter *)

Lemma matches_app q1 q2 p :
  Store.matches (q1 ++ q2) p = Store.matches q1 p && Store.matches q2 p.
Proof. apply forallb_app. Qed.






Lemma truthy_price_bound v :
  (if truthy_price (price_of v) then price_of v else None) = Spec.bound v /\
  truthy_price (price_of v) = match Spec.bound v with Some _ => true | None => false end.
Proof.
  destruct v as [[|c s]|]; try (split; reflexivity).
  unfold price_of, Spec.bound. cbn [JS.truthy_string truthy_price].
  destruct (JS.parseFloat (String c s)) as [| b | q]; try (split; reflexivity).
  cbn [JS.truthy_number].
  assert (E : Qeq_bool q 0 = (Qnum q =? 0)).
  { unfold Qeq_bool. cbn [Qnum Qden]. rewrite Z.mul_1_r. reflexivity. }
  rewrite E. destruct (Qnum q =? 0); split; reflexivity.
Qed.

(** The part of the query object that bounds the price. *)
Lemma price_clause lo hi :
  (if truthy_price (price_of lo) || truthy_price (price_of hi) then
     [Store.Field "retail_price"
        (Store.Range (if truthy_price (price_of lo) then price_of lo else None)
                     (if truthy_price (price_of hi) then price_of hi else None))]
   else [])
  = match Spec.bound lo, Spec.bound hi with
    | None, None => []
    | b1, b2 => [Store.Field "retail_price" (Store.Range b1 b2)]
    end.
Proof.
  destruct (truthy_price_bound lo) as [E1 T1], (truthy_price_bound hi) as [E2 T2].
  rewrite E1, E2, T1, T2. destruct (Spec.bound lo), (Spec.bound hi); reflexivity.
Qed.

Lemma price_clause_matches lo hi p :
  Store.matches
    match Spec.bound lo, Spec.bound hi with
    | None, None => []
    | b1, b2 => [Store.Field "retail_price" (Store.Range b1 b2)]
    end p
  = Spec.at_least (Spec.bound lo) p && Spec.at_most (Spec.bound hi) p.
Proof.
  destruct (Spec.bound lo) as [a|], (Spec.bound hi) as [b|];
    cbn [Store.matches forallb Store.clause_holds Store.holds Spec.at_least Spec.at_most];
    try reflexivity;
    change (Store.field "retail_price" p) with (Some (Store.VNum (Product.retail_price p)));
    cbn [Store.holds]; apply andb_true_r.
Qed.


(** The query object of a request, with the price part told by the
    bounds. *)
Lemma query_of_eq req :
  query_of req =
  regex_clause "category" (Query.category req)
  ++ regex_clause "department" (Query.department req)
  ++ regex_clause "brand" (Query.brand req)
  ++ match Query.search req with
     | Some s => if JS.truthy_string s then [Store.Or (search_alternatives s)] else []
     | None => []
     end
  ++ match Spec.bound (Query.minPrice req), Spec.bound (Query.maxPrice req) with
     | None, None => []
     | b1, b2 => [Store.Field "retail_price" (Store.Range b1 b2)]
     end.
Proof.
  unfold query_of, build_query. rewrite price_clause. reflexivity.
Qed.





(** A pattern that the store refuses fails the request. *)
Example refused_pattern :
  fst (list_products (with_category (Some "(") Query.empty) catalog)
  = failure 500 "Internal server error while fetching products".
Proof. vm_compute. reflexivity. Qed.



Example filter_on_the_catalog :
  List.filter
    (Spec.filter
       {| Query.page := None; Query.limit := None; Query.category := Some "shoe";
          Query.department := None; Query.brand := Some ""; Query.minPrice := None;
          Query.maxPrice := None; Query.search := Some "NIKE"; Query.sortBy := None;
          Query.sortOrder := None |}) catalog
  = [shoe].
Proof. vm_compute. reflexivity. Qed.

(* ================================================================= *)
(** ** Price bounds *)

Example bound_of_zero : Spec.bound (Some "0") = None /\ Spec.bound (Some "0.00") = None.
Proof. split; vm_compute; reflexivity. Qed.

Example bound_of_text : Spec.bound (Some "cheap") = None /\ Spec.bound (Some "") = None.
Proof. split; vm_compute; reflexivity. Qed.

Example bound_of_number : Spec.bound (Some "50") = Some (JS.Num 50).
Proof. vm_compute. reflexivity. Qed.








(* ================================================================= *)
(** ** The ordering directive *)

(** C6 does not hold as stated: a [sortBy] that is supplied but empty is
    not the field of the directive; it is replaced by [id]. *)
Lemma sortBy_is_not_always_the_field :
  let req := with_sortBy (Some "") Query.empty in
  Query.sortBy req = Some "" /\
  snd (list_products req catalog) =
  [ Store.find [] (Some [("id", 1)]) (Some 0) (Some 20); Store.countDocuments [] ].
Proof.
  vm_compute. repeat split; reflexivity.
Qed.

(** C6 (amended): a request that passes validation reaches the store
    with one ordering directive.  Its direction is descending ([-1])
    exactly when [sortOrder] is the string [desc] and ascending ([1])
    for any other value or none.  Its field is [id] when [sortBy] is
    absent or empty, and [sortBy] when that is supplied and non-empty: a
    name is passed on as it is, known or not.  (The name [__proto__],
    which is not a key that an object can be given by assignment, is
    left aside.) *)
Theorem sort_directive (req : Query.t) (coll : Store.collection) :
  1 <= page_of req -> 1 <= limit_of req <= 100 ->
  exists q sort skip limit direction,
    snd (list_products req coll) =
      [ Store.find q (Some sort) skip limit; Store.countDocuments q ] /\
    (direction = -1 <-> Query.sortOrder req = Some "desc") /\
    (direction = 1 <-> Query.sortOrder req <> Some "desc") /\
    (Query.sortBy req = None \/ Query.sortBy req = Some "" -> sort = [("id", direction)]) /\
    (forall s, Query.sortBy req = Some s -> s <> "" -> s <> "__proto__" ->
               sort = [(s, direction)]).
Proof.
  intros Hp Hl.
  assert (T : snd (list_products req coll) =
              [ Store.find (query_of req)
                  (Some (build_sort (sortBy_of req) (sortOrder_of req)))
                  (Some ((page_of req - 1) * limit_of req)) (Some (limit_of req));
                Store.countDocuments (query_of req) ]).
  { destruct (Store.filter_ok (query_of req)) eqn:Hq.
    - destruct (list_products_served req coll Hp Hl Hq) as (pg & fl & E & _).
      rewrite E. reflexivity.
    - rewrite (list_products_refused req coll Hp Hl Hq). reflexivity. }
  exists (query_of req), (build_sort (sortBy_of req) (sortOrder_of req)),
    (Some ((page_of req - 1) * limit_of req)), (Some (limit_of req)), (sortOrder_of req).
  split; [exact T|]. unfold sortOrder_of, sortBy_of, or_string, build_sort.
  repeat split.
  - destruct (Query.sortOrder req) as [s|]; [|discriminate].
    destruct (String.eqb_spec s "desc") as [->|N]; [reflexivity | discriminate].
  - intros E. rewrite E. reflexivity.
  - destruct (Query.sortOrder req) as [s|]; [|discriminate].
    destruct (String.eqb_spec s "desc") as [->|N]; [discriminate|].
    intros _ E. apply N. congruence.
  - destruct (Query.sortOrder req) as [s|]; [|reflexivity].
    destruct (String.eqb_spec s "desc") as [->|N]; [|reflexivity].
    intros K. exfalso. apply K. reflexivity.
  - intros [E | E]; rewrite E; reflexivity.
  - intros s E N1 N2. rewrite E. destruct s as [|c s]; [contradiction|].
    cbn [JS.truthy_string].
    destruct (String.eqb_spec (String c s) "__proto__") as [K|K]; [contradiction | reflexivity].
Qed.

(** The amended C6 on [sortBy=colour&sortOrder=desc], a field that no
    product has. *)
Lemma sort_directive_witness :
  let req :=
    {| Query.page := None; Query.limit := None; Query.category := None;
       Query.department := None; Query.brand := None; Query.minPrice := None;
       Query.maxPrice := None; Query.search := None; Query.sortBy := Some "colour";
       Query.sortOrder := Some "desc" |} in
  exists q skip limit,
    snd (list_products req catalog) =
    [ Store.find q (Some [("colour", -1)]) skip limit; Store.countDocuments q ].
Proof.
  cbv zeta.
  match goal with
  | |- context [list_products ?r _] =>
      destruct (sort_directive r catalog)
        as (q & sort & skip & limit & direction & T & D & _ & _ & F)
  end.
  - vm_compute. discriminate.
  - vm_compute. split; discriminate.
  - exists q, skip, limit. rewrite T.
    rewrite (F "colour" eq_refl ltac:(discriminate) ltac:(discriminate)).
    rewrite (proj2 D eq_refl). reflexivity.
Defined.

(* ================================================================= *)
(** ** One product by its id *)

Lemma eqb_by_code c d : JS.code c <> JS.code d -> Ascii.eqb c d = false.
Proof.
  intros H. apply Ascii.eqb_neq. intros E. apply H. rewrite E. reflexivity.
Qed.

(** No white space starts with a digit. *)
Lemma trimStart_decimal c l :
  JS.is_decimal c = true -> JS.trimStart (c :: l) = c :: l.
Proof.
  intros H. unfold JS.is_decimal in H.
  apply andb_true_iff in H. destruct H as [B1 B2].
  apply Z.leb_le in B1. apply Z.leb_le in B2.
  assert (W : JS.is_ws c = false).
  { unfold JS.is_ws. cbv zeta.
    destruct (Z.leb_spec 9 (JS.code c)), (Z.leb_spec (JS.code c) 13),
      (Z.eqb_spec (JS.code c) 32); try reflexivity; lia. }
  assert (W2 : forall c2, JS.is_ws2 c c2 = false).
  { intros c2. unfold JS.is_ws2.
    destruct (Z.eqb_spec (JS.code c) 194); [lia | reflexivity]. }
  assert (W3 : forall c2 c3, JS.is_ws3 c c2 c3 = false).
  { intros c2 c3. unfold JS.is_ws3. cbv zeta.
    destruct (Z.eqb_spec (JS.code c) 225); [lia|].
    destruct (Z.eqb_spec (JS.code c) 226); [lia|].
    destruct (Z.eqb_spec (JS.code c) 227); [lia|].
    destruct (Z.eqb_spec (JS.code c) 239); [lia|]. reflexivity. }
  destruct l as [|c2 [|c3 t]]; cbn [JS.trimStart]; rewrite W; try reflexivity;
    rewrite W2; try reflexivity. rewrite W3. reflexivity.
Qed.

Lemma decimal_char c :
  JS.is_decimal c = true ->
  JS.is_ws c = false /\ Ascii.eqb c "-" = false /\ Ascii.eqb c "+" = false /\
  Ascii.eqb c "x" = false /\ Ascii.eqb c "X" = false /\
  JS.digit 10 c = Some (JS.code c - 48) /\ 0 <= JS.code c - 48.
Proof.
  intros H. pose proof H as B. unfold JS.is_decimal in B.
  apply andb_true_iff in B. destruct B as [B1 B2].
  apply Z.leb_le in B1. apply Z.leb_le in B2.
  repeat split.
  - unfold JS.is_ws. cbv zeta.
    destruct (Z.leb_spec 9 (JS.code c)), (Z.leb_spec (JS.code c) 13),
      (Z.eqb_spec (JS.code c) 32); try reflexivity; lia.
  - apply eqb_by_code. change (JS.code "-") with 45. lia.
  - apply eqb_by_code. change (JS.code "+") with 43. lia.
  - apply eqb_by_code. change (JS.code "x") with 120. lia.
  - apply eqb_by_code. change (JS.code "X") with 88. lia.
  - unfold JS.digit. cbv zeta. fold (JS.is_decimal c). rewrite H.
    destruct (Z.ltb_spec (JS.code c - 48) 10); [reflexivity | lia].
  - lia.
Qed.

Lemma digits_decimal l :
  forallb JS.is_decimal l = true ->
  JS.digits 10 l = (map (fun c => JS.code c - 48) l, []).
Proof.
  induction l as [|c l IH]; intros H.
  - reflexivity.
  - cbn [forallb] in H. apply andb_true_iff in H. destruct H as [Hc Hl].
    destruct (decimal_char c Hc) as (_ & _ & _ & _ & _ & D & _).
    cbn [JS.digits map]. rewrite D, (IH Hl). reflexivity.
Qed.

Lemma value_nonneg ds : forall acc,
  0 <= acc -> Forall (fun d => 0 <= d) ds ->
  0 <= fold_left (fun a d => a * 10 + d) ds acc.
Proof.
  induction ds as [|d ds IH]; intros acc Ha Hd.
  - exact Ha.
  - inversion Hd; subst. cbn [fold_left]. apply IH; [lia | assumption].
Qed.

(** A string of digits denotes a natural number. *)
Lemma mathInt_digits s :
  JS.all_digits s = true ->
  exists n, JS.mathInt s = Some n /\ 0 <= n.
Proof.
  unfold JS.all_digits, JS.mathInt.
  destruct (list_ascii_of_string s) as [|c l]; [discriminate|].
  intros H. pose proof (digits_decimal _ H) as D.
  cbn [forallb] in H. apply andb_true_iff in H. destruct H as [Hc Hl].
  destruct (decimal_char c Hc) as (W & M & P & _ & _ & _ & N).
  rewrite (trimStart_decimal c l Hc). cbn [JS.strip_sign]. rewrite M, P.
  assert (R : JS.strip_radix (c :: l) = (10, c :: l)).
  { destruct l as [|c2 t]; [reflexivity|].
    cbn [forallb] in Hl. apply andb_true_iff in Hl. destruct Hl as [Hc2 _].
    destruct (decimal_char c2 Hc2) as (_ & _ & _ & X1 & X2 & _).
    cbn [JS.strip_radix]. rewrite X1, X2, andb_false_r. reflexivity. }
  rewrite R, D. cbn [fst map].
  eexists. split; [reflexivity|].
  rewrite Z.mul_1_l. unfold JS.value. apply value_nonneg; [lia|].
  constructor; [exact N|].
  apply Forall_forall. intros d Hd. apply in_map_iff in Hd.
  destruct Hd as (x & <- & Hx).
  rewrite forallb_forall in Hl. destruct (decimal_char x (Hl x Hx)) as (_ & _ & _ & _ & _ & _ & K).
  exact K.
Qed.

Lemma round_nonneg n : 0 <= n -> 0 <= JS.round n.
Proof.
  intros H. destruct (Z_le_gt_dec (Z.abs n) (2 ^ 53)) as [S | L].
  - rewrite round_small by exact S. exact H.
  - destruct (round_large_eq n) as (m & E & M); [lia|]. rewrite E.
    destruct n; cbn [Z.sgn]; lia.
Qed.

(** A string of digits parses to the number of a natural number. *)
Lemma parseInt_digits s :
  JS.all_digits s = true ->
  exists id, JS.parseInt_string s = Some id /\ 0 <= id.
Proof.
  intros H. destruct (mathInt_digits s H) as (n & E & N).
  exists (JS.round n). unfold JS.parseInt_string. rewrite E.
  split; [reflexivity | apply round_nonneg; exact N].
Qed.

Lemma matches_id id p :
  Store.matches [Store.Field "id" (Store.Equals id)] p = (Product.id p =? id).
Proof.
  cbn [Store.matches forallb Store.clause_holds].
  change (Store.field "id" p) with (Some (Store.VNum (inject_Z (Product.id p)))).
  cbn [Store.holds]. unfold Qeq_bool, inject_Z. cbn [Qnum Qden].
  rewrite !Z.mul_1_r. apply andb_true_r.
Qed.

Lemma get_product_lookup s id coll :
  JS.all_digits s = true -> JS.parseInt_string s = Some id ->
  get_product s coll =
  (match List.find (Store.matches [Store.Field "id" (Store.Equals id)]) coll with
   | Some p => ok (Single p)
   | None => failure 404 (not_found_message id)
   end,
   [Store.findOne [Store.Field "id" (Store.Equals id)]]).
Proof.
  intros D P. unfold get_product. rewrite D, P. cbn [negb].
  unfold try_catch, Store.bind, Store.Product_findOne, Store.guarded.
  cbn [Store.filter_ok forallb Store.clause_ok Store.cond_ok andb app].
  destruct (List.find _ coll); reflexivity.
Qed.

Lemma same_key_same_element {A B} (f : A -> B) (l : list A) a b :
  NoDup (map f l) -> In a l -> In b l -> f a = f b -> a = b.
Proof.
  induction l as [|x l IH]; intros N Ha Hb E; [contradiction|].
  cbn [map] in N. inversion N as [|? ? Hx Hl]; subst.
  destruct Ha as [<- | Ha], Hb as [<- | Hb].
  - reflexivity.
  - exfalso. apply Hx. rewrite E. apply in_map. exact Hb.
  - exfalso. apply Hx. rewrite <- E. apply in_map. exact Ha.
  - apply IH; assumption.
Qed.

(** Up to [2^53] a number is printed with all its digits. *)
Lemma toString_decimal n : n <= 2 ^ 53 -> JS.toString n = JS.decimal n.
Proof.
  intros H. unfold JS.toString.
  destruct (Z.leb_spec JS.infinity n) as [I | _].
  - exfalso. assert (2 ^ 54 <= JS.infinity) by (apply Z.pow_le_mono_r; lia). lia.
  - destruct (Z.ltb_spec n (10 ^ 21)) as [_ | T]; [reflexivity | lia].
Qed.

(** C7 does not hold as stated: the id is read as a binary64 number.
    The path parameter [9007199254740993] is answered with the product
    whose id is [9007199254740992], although no product has the id that
    was asked for; and when no product has the id
    [1000000000000000000000], the message names it [1e+21]. *)
Lemma large_id_is_a_rounded_number :
  let coll := [renumbered 9007199254740992 shoe] in
  JS.all_digits "9007199254740993" = true /\
  JS.mathInt "9007199254740993" = Some 9007199254740993 /\
  (forall p, In p coll -> Product.id p <> 9007199254740993) /\
  fst (get_product "9007199254740993" coll) = ok (Single (renumbered 9007199254740992 shoe)) /\
  fst (get_product "1000000000000000000000" catalog)
  = failure 404 "Product with ID 1e+21 not found".
Proof.
  cbv zeta. repeat split; try (vm_compute; reflexivity).
  intros p [<- | []]. vm_compute. discriminate.
Qed.

(** C7 (amended): a path parameter that is not a non-empty string of
    digits is answered 400 before any call to the store; a string of
    digits denotes an integer [id], and when [id] is at most [2^53] the
    answer is a 404 whose message names [id] in decimal digits when no
    product has it, and the full record of a product with that id when
    there is one (the only one, when ids are unique). *)
Theorem get_product_by_id (productId : string) (coll : Store.collection) :
  (JS.all_digits productId = false ->
     get_product productId coll =
     (failure 400 "Invalid product ID format. ID must be a number", [])) /\
  (JS.all_digits productId = true ->
     exists id,
       JS.mathInt productId = Some id /\ 0 <= id /\
       (id <= 2 ^ 53 ->
        ((forall p, In p coll -> Product.id p <> id) ->
           fst (get_product productId coll) =
           failure 404
             ("Product with ID " ++ NilZero.string_of_uint (N.to_uint (Z.to_N id))
              ++ " not found")) /\
        (forall p, In p coll -> Product.id p = id ->
           exists p',
             In p' coll /\ Product.id p' = id /\
             fst (get_product productId coll) = ok (Single p') /\
             (NoDup (map Product.id coll) -> p' = p)))).
Proof.
  split.
  - intros D. unfold get_product. rewrite D. reflexivity.
  - intros D. destruct (mathInt_digits productId D) as (id & M & N).
    exists id. split; [exact M|]. split; [exact N|]. intros B.
    assert (P : JS.parseInt_string productId = Some id).
    { unfold JS.parseInt_string. rewrite M. cbn [option_map].
      rewrite round_small by lia. reflexivity. }
    rewrite (get_product_lookup productId id coll D P). cbn [fst].
    unfold not_found_message. rewrite toString_decimal by exact B. unfold JS.decimal.
    destruct (List.find _ coll) as [p'|] eqn:F.
    + apply find_some in F. destruct F as [Hin Hm].
      rewrite matches_id in Hm. apply Z.eqb_eq in Hm. split.
      * intros None_has. exfalso. exact (None_has p' Hin Hm).
      * intros p Hp Hid. exists p'. repeat split; try assumption.
        intros U. apply (same_key_same_element Product.id coll); congruence.
    + split.
      * intros _. reflexivity.
      * intros p Hp Hid. exfalso.
        pose proof (find_none _ _ F p Hp) as K.
        rewrite matches_id in K. apply Z.eqb_neq in K. contradiction.
Qed.

Example get_product_examples :
  fst (get_product "abc" catalog)
    = failure 400 "Invalid product ID format. ID must be a number" /\
  fst (get_product "999999999" catalog)
    = failure 404 "Product with ID 999999999 not found" /\
  fst (get_product "42" catalog) = ok (Single shoe) /\
  fst (get_product "007" catalog) = ok (Single jeans).
Proof. vm_compute. repeat split; reflexivity. Qed.

(** The three cases of C7 on the catalog: [4x2] is refused, no product
    has the id [999999999], and the id [42] is that of one product. *)
Lemma get_product_by_id_witness :
  get_product "4x2" catalog
    = (failure 400 "Invalid product ID format. ID must be a number", []) /\
  fst (get_product "999999999" catalog)
    = failure 404 "Product with ID 999999999 not found" /\
  exists p',
    In p' catalog /\ Product.id p' = 42 /\
    fst (get_product "42" catalog) = ok (Single p') /\ p' = shoe.
Proof.
  split; [|split].
  - apply (get_product_by_id "4x2" catalog). reflexivity.
  - destruct (proj2 (get_product_by_id "999999999" catalog) eq_refl) as (id & M & _ & H).
    assert (E : id = 999999999) by (vm_compute in M; congruence). subst id.
    destruct (H ltac:(vm_compute; discriminate)) as [H404 _].
    rewrite H404; [reflexivity|].
    intros p [<- | [<- | [<- | []]]]; vm_compute; discriminate.
  - destruct (proj2 (get_product_by_id "42" catalog) eq_refl) as (id & M & _ & H).
    assert (E : id = 42) by (vm_compute in M; congruence). subst id.
    destruct (H ltac:(vm_compute; discriminate)) as [_ H200].
    destruct (H200 shoe (or_introl eq_refl) eq_refl) as (p' & Hin & Hid & R & U).
    exists p'. repeat split; try assumption. apply U.
    vm_compute. repeat constructor; cbn; intuition discriminate.
Defined.

(* ================================================================= *)
(** ** Search by term *)

Lemma search_products_short term limit_param coll :
  (JS.length (JS.trim term) < 2)%nat ->
  search_products term limit_param coll =
  (failure 400 "Search term must be at least 2 characters long", []).
Proof.
  intros H. unfold search_products. cbv zeta.
  replace (Z.of_nat (JS.length (JS.trim term)) <? 2) with true
    by (symmetry; apply Z.ltb_lt; lia).
  rewrite orb_true_r. reflexivity.
Qed.

Lemma search_products_long term limit_param coll :
  (2 <= JS.length (JS.trim term))%nat ->
  let q := [Store.Or (search_alternatives term)] in
  let limit := JS.or_default (JS.parseInt limit_param) 10 in
  search_products term limit_param coll =
  (if Store.filter_ok q then
     let products := Store.limit_stage limit (List.filter (Store.matches q) coll) in
     ok (Found products (Z.of_nat (List.length products)) term)
   else failure 500 "Internal server error while searching products",
   [Store.find q None None (Some limit)]).
Proof.
  intros H. cbv zeta. unfold search_products. cbv zeta.
  assert (T : JS.truthy_string term = true).
  { destruct term; [|reflexivity]. vm_compute in H. lia. }
  rewrite T.
  replace (Z.of_nat (JS.length (JS.trim term)) <? 2) with false
    by (symmetry; apply Z.ltb_ge; lia).
  cbn [negb orb].
  unfold try_catch, Store.bind, Store.Product_find, Store.guarded.
  destruct (Store.filter_ok _); reflexivity.
Qed.




(* ================================================================= *)
(** ** Statistics *)

Lemma or_zero_some x : Qeq (or_zero (Some x)) x.
Proof.
  unfold or_zero. destruct (Z.eqb_spec (Qnum x) 0) as [E | E].
  - unfold Qeq. cbn [Qnum Qden]. rewrite E. reflexivity.
  - reflexivity.
Qed.

Lemma filter_no_clause (coll : Store.collection) :
  List.filter (Store.matches []) coll = coll.
Proof.
  induction coll as [|p l IH]; [reflexivity|].
  cbn [List.filter Store.matches forallb]. f_equal. exact IH.
Qed.












(* ================================================================= *)
(** ** The endpoints of distinct values: sorted, without repeats *)











Lemma values_In f coll v :
  In v (Store.values f coll) <-> exists p, In p coll /\ Store.field f p = Some v.
Proof.
  unfold Store.values. rewrite in_flat_map. split.
  - intros (p & Hp & Hv). exists p. split; [exact Hp|].
    destruct (Store.field f p) as [w|]; [|contradiction].
    destruct Hv as [-> | []]. reflexivity.
  - intros (p & Hp & E). exists p. split; [exact Hp|]. rewrite E. left. reflexivity.
Qed.




Example names_on_the_catalog :
  fst (get_categories catalog)
  = {| Names.status := 200; Names.success := true;
       Names.json := Names.Values ["Accessories"; "Jeans"; "Shoes"] 3 |} /\
  fst (get_brands catalog)
  = {| Names.status := 200; Names.success := true;
       Names.json := Names.Values ["Levi's"; "Nike"] 2 |}.
Proof. vm_compute. split; reflexivity. Qed.

(* ================================================================= *)
(** ** Reading a number back from its decimal string *)

Lemma mathInt_decimal s :
  JS.all_digits s = true ->
  JS.mathInt s =
  Some (JS.value 10 (map (fun c => JS.code c - 48) (list_ascii_of_string s))).
Proof.
  unfold JS.all_digits, JS.mathInt.
  destruct (list_ascii_of_string s) as [|c l]; [discriminate|].
  intros H. pose proof (digits_decimal _ H) as D.
  cbn [forallb] in H. apply andb_true_iff in H. destruct H as [Hc Hl].
  destruct (decimal_char c Hc) as (W & M & P & _).
  rewrite (trimStart_decimal c l Hc). cbn [JS.strip_sign]. rewrite M, P.
  assert (R : JS.strip_radix (c :: l) = (10, c :: l)).
  { destruct l as [|c2 t]; [reflexivity|].
    cbn [forallb] in Hl. apply andb_true_iff in Hl. destruct Hl as [Hc2 _].
    destruct (decimal_char c2 Hc2) as (_ & _ & _ & X1 & X2 & _).
    cbn [JS.strip_radix]. rewrite X1, X2, andb_false_r. reflexivity. }
  rewrite R, D. cbn [fst map]. rewrite Z.mul_1_l. reflexivity.
Qed.

Ltac digit_step :=
  match goal with
  | |- context [JS.code ?c] =>
      let v := eval vm_compute in (JS.code c) in change (JS.code c) with v
  end;
  lia.

Lemma uint_chars_decimal d :
  forallb JS.is_decimal (list_ascii_of_string (NilEmpty.string_of_uint d)) = true.
Proof.
  induction d; cbn [NilEmpty.string_of_uint list_ascii_of_string forallb];
    try reflexivity; rewrite IHd; reflexivity.
Qed.

Lemma uint_value_acc d : forall acc,
  fold_left (fun a x => a * 10 + x)
    (map (fun c => JS.code c - 48) (list_ascii_of_string (NilEmpty.string_of_uint d)))
    (Z.pos acc)
  = Z.pos (Pos.of_uint_acc d acc).
Proof.
  induction d; intros acc;
    cbn [NilEmpty.string_of_uint list_ascii_of_string map fold_left Pos.of_uint_acc];
    try reflexivity;
    rewrite <- IHd; f_equal; digit_step.
Qed.

Lemma uint_value d :
  fold_left (fun a x => a * 10 + x)
    (map (fun c => JS.code c - 48) (list_ascii_of_string (NilEmpty.string_of_uint d))) 0
  = Z.of_N (Pos.of_uint d).
Proof.
  induction d;
    cbn [NilEmpty.string_of_uint list_ascii_of_string map fold_left Pos.of_uint];
    try reflexivity;
    try (cbn [Z.of_N]; rewrite <- uint_value_acc; f_equal; digit_step).
  rewrite <- IHd. f_equal.
Qed.

Lemma nilzero_chars d :
  JS.all_digits (NilZero.string_of_uint d) = true /\
  JS.value 10 (map (fun c => JS.code c - 48)
                 (list_ascii_of_string (NilZero.string_of_uint d)))
  = Z.of_N (Pos.of_uint d).
Proof.
  destruct d; (split; [| first [reflexivity | exact (uint_value _)]]);
    first [ reflexivity
          | unfold JS.all_digits;
            cbn [NilZero.string_of_uint NilEmpty.string_of_uint list_ascii_of_string];
            exact (uint_chars_decimal (_ d)) ].
Qed.

(** The digits of a natural number denote it. *)
Lemma mathInt_of_decimal n :
  0 <= n ->
  JS.all_digits (JS.decimal n) = true /\ JS.mathInt (JS.decimal n) = Some n.
Proof.
  intros H. unfold JS.decimal.
  destruct (nilzero_chars (N.to_uint (Z.to_N n))) as [A V].
  split; [exact A|]. rewrite (mathInt_decimal _ A), V.
  pose proof (DecimalN.Unsigned.of_to (Z.to_N n)) as R. unfold N.of_uint in R.
  rewrite R. f_equal. lia.
Qed.

(** [parseInt(String(n))] is [n] for a natural number [n] up to [2^53],
    and the string is made of digits. *)
Lemma parseInt_toString n :
  0 <= n <= 2 ^ 53 ->
  JS.all_digits (JS.toString n) = true /\ JS.parseInt_string (JS.toString n) = Some n.
Proof.
  intros H. rewrite toString_decimal by lia.
  destruct (mathInt_of_decimal n) as [A V]; [lia|].
  split; [exact A|]. unfold JS.parseInt_string. rewrite V. cbn [option_map].
  rewrite round_small by lia. reflexivity.
Qed.

(* ================================================================= *)
(** ** Walking through the pages *)

Lemma windows_concat {A} (L : nat) : forall (n : nat) (l : list A),
  (List.length l <= n * L)%nat ->
  List.concat (map (fun i => firstn L (skipn (i * L) l)) (seq 0 n)) = l.
Proof.
  induction n as [|n IH]; intros l H.
  - destruct l; [reflexivity | cbn in H; lia].
  - cbn [seq map List.concat]. rewrite <- seq_shift, map_map.
    rewrite (map_ext _ (fun i => firstn L (skipn (i * L) (skipn L l)))).
    + rewrite IH; [apply firstn_skipn|]. rewrite length_skipn. lia.
    + intros i. rewrite skipn_skipn. f_equal. f_equal. lia.
Qed.

Lemma page_of_with_page k req :
  1 <= k <= 2 ^ 53 -> page_of (with_page (Some (JS.toString k)) req) = k.
Proof.
  intros H. unfold page_of. cbn [with_page Query.page JS.parseInt].
  destruct (parseInt_toString k) as [_ E]; [lia|]. rewrite E.
  destruct k; try lia. reflexivity.
Qed.

(** The page [k] of a request whose limit and filter are accepted. *)
Lemma listed_page req coll k :
  1 <= k <= 2 ^ 53 -> 1 <= limit_of req <= 100 -> Store.filter_ok (query_of req) = true ->
  listed (fst (list_products (with_page (Some (JS.toString k)) req) coll)) =
  Spec.window ((k - 1) * limit_of req) (limit_of req)
    (Store.sort_by (build_sort (sortBy_of req) (sortOrder_of req))
       (List.filter (Store.matches (query_of req)) coll)).
Proof.
  intros Hk Hl Hq.
  destruct (list_products_served (with_page (Some (JS.toString k)) req) coll)
    as (pg & fl & E & _).
  - rewrite page_of_with_page; lia.
  - exact Hl.
  - exact Hq.
  - rewrite E. cbn [fst listed json ok]. rewrite page_of_with_page by exact Hk.
    reflexivity.
Qed.

Lemma filter_shorter {A} (f : A -> bool) l :
  (List.length (List.filter f l) <= List.length l)%nat.
Proof.
  induction l as [|x l IH]; cbn [List.filter List.length]; [lia|].
  destruct (f x); cbn [List.length]; lia.
Qed.

(** X3: when the limit and the filter of a request are accepted, no
    two products that pass the filter have the same value of the sort
    field, and the collection has at most [2^53] products, the data of
    the pages 1 to [totalPages], one after the other, are exactly the
    products that pass the filter in the order of the sort: no product
    is left out and none comes twice. *)
Theorem pages_cover_the_listing (req : Query.t) (coll : Store.collection) :
  let filtered := List.filter (Store.matches (query_of req)) coll in
  1 <= limit_of req <= 100 ->
  Store.filter_ok (query_of req) = true ->
  (forall a b, In a filtered -> In b filtered ->
     Store.compare_value (Store.field (sortBy_of req) a) (Store.field (sortBy_of req) b) = Eq ->
     a = b) ->
  Z.of_nat (List.length coll) <= 2 ^ 53 ->
  let sorted := Store.sort_by (build_sort (sortBy_of req) (sortOrder_of req)) filtered in
  let totalPages :=
    JS.Math_ceil (Qdiv (inject_Z (Z.of_nat (List.length sorted))) (inject_Z (limit_of req))) in
  let pages :=
    List.concat
      (map (fun k : nat =>
              listed (fst (list_products
                             (with_page (Some (JS.toString (Z.of_nat k))) req) coll)))
         (seq 1 (Z.to_nat totalPages))) in
  pages = sorted /\
  Permutation pages filtered /\
  Sorted (Spec.ordered (Spec.sort_field req) (Spec.descending req)) pages.
Proof.
  intros filtered Hl Hq _ Hsize sorted totalPages pages.
  assert (E : pages = sorted).
  { pose proof (Math_ceil_bounds (Z.of_nat (List.length sorted)) (limit_of req)) as B.
    cbv zeta in B. fold totalPages in B.
    assert (Len : (List.length sorted <= List.length coll)%nat).
    { unfold sorted. rewrite sort_by_length. apply filter_shorter. }
    unfold pages. rewrite <- seq_shift, map_map.
    rewrite (map_ext_in _
               (fun i => firstn (Z.to_nat (limit_of req))
                           (skipn (i * Z.to_nat (limit_of req)) sorted))).
    - apply windows_concat. nia.
    - intros i Hi. apply in_seq in Hi.
      rewrite listed_page by (try assumption; nia).
      unfold Spec.window. fold filtered. fold sorted. f_equal. f_equal. nia. }
  rewrite E. split; [reflexivity|]. split.
  - apply sort_by_perm.
  - eapply Sorted_weaken; [|apply sort_by_sorted]. intros a b. apply in_order_ordered.
Qed.

(** X3 on the catalog, two products a page: the two pages hold the
    three products in the order of their ids. *)
Lemma pages_cover_the_listing_witness :
  listed (fst (list_products
                 (with_page (Some "1") (with_limit (Some "2") Query.empty)) catalog))
  ++ listed (fst (list_products
                    (with_page (Some "2") (with_limit (Some "2") Query.empty)) catalog))
  = [jeans; cap; shoe].
Proof.
  destruct (pages_cover_the_listing (with_limit (Some "2") Query.empty) catalog) as [H _].
  - split; discriminate.
  - reflexivity.
  - intros a b [<- | [<- | [<- | []]]] [<- | [<- | [<- | []]]] C;
      first [reflexivity | vm_compute in C; discriminate C].
  - vm_compute. discriminate.
  - vm_compute in H. vm_compute. exact H.
Defined.

(** X4: in a successful list response the data hold
    [min(limit, max(0, totalCount - skip))] products: a page that has a
    next page is full, the last page holds what is left, and the data
    are empty exactly when [skip] reaches [totalCount]. *)
Theorem page_sizes (req : Query.t) (coll : Store.collection) :
  success (fst (list_products req coll)) = true ->
  exists data pg fl,
    json (fst (list_products req coll)) = Listing data pg fl /\
    let limit := limit_of req in
    let skip := (page_of req - 1) * limit in
    let size := Z.of_nat (List.length data) in
    size = Z.min limit (Z.max 0 (Pagination.totalCount pg - skip)) /\
    (Pagination.hasNextPage pg = true -> size = limit) /\
    (Pagination.hasNextPage pg = false -> page_of req <= Pagination.totalPages pg ->
       skip + size = Pagination.totalCount pg) /\
    (data = [] <-> Pagination.totalCount pg <= skip).
Proof.
  intros H. destruct (list_products_success req coll H) as (Hp & Hl & Hq).
  destruct (list_products_served req coll Hp Hl Hq)
    as (pg & fl & E & _ & _ & Hc & Ht & Hn & _).
  rewrite E. cbn [fst json ok]. eexists _, pg, fl. split; [reflexivity|].
  cbv zeta.
  pose proof (Math_ceil_bounds (Pagination.totalCount pg) (limit_of req)) as B.
  cbv zeta in B. rewrite <- Ht in B. specialize (B ltac:(lia)).
  assert (S : Z.of_nat (List.length
                 (Spec.window ((page_of req - 1) * limit_of req) (limit_of req)
                    (Store.sort_by (build_sort (sortBy_of req) (sortOrder_of req))
                       (List.filter (Store.matches (query_of req)) coll))))
              = Z.min (limit_of req)
                  (Z.max 0 (Pagination.totalCount pg - (page_of req - 1) * limit_of req))).
  { unfold Spec.window. rewrite length_firstn, length_skipn, sort_by_length, Hc. nia. }
  split; [exact S|]. split; [|split].
  - intros N. rewrite Hn in N. apply Z.ltb_lt in N. rewrite S. nia.
  - intros N Le. rewrite Hn in N. apply Z.ltb_ge in N. rewrite S. nia.
  - split.
    + intros D. rewrite D in S. cbn [List.length Z.of_nat] in S. nia.
    + intros Le. apply length_zero_iff_nil. nia.
Qed.

(** X4 on the second page of the catalog, two products a page. *)
Lemma page_sizes_witness :
  exists data pg fl,
    json (fst (list_products
                 (with_page (Some "2") (with_limit (Some "2") Query.empty)) catalog))
    = Listing data pg fl /\
    Z.of_nat (List.length data) = 1 /\
    Pagination.hasNextPage pg = false.
Proof.
  destruct (page_sizes (with_page (Some "2") (with_limit (Some "2") Query.empty)) catalog)
    as (data & pg & fl & E & S & _).
  - reflexivity.
  - exists data, pg, fl. split; [exact E|].
    vm_compute in E. inversion E; subst. split; reflexivity.
Defined.

(* ================================================================= *)
(** ** Errors of the store and whole envelopes *)






(** X6: every reply of the list, product, search and statistics
    handlers is a whole envelope: either status 200 with
    [success: true] and no [error], or [success: false] with a message
    that is not empty and a status among those of the handler. *)
Theorem replies_are_whole_envelopes (req : Query.t) (productId term : string)
    (limit_param : option string) (coll : Store.collection) :
  envelope [400; 500] (fst (list_products req coll)) /\
  envelope [400; 404; 500] (fst (get_product productId coll)) /\
  envelope [400; 500] (fst (search_products term limit_param coll)) /\
  envelope [500] (fst (get_stats coll)).
Proof.
  split; [|split; [|split]].
  - destruct (list_products_cases req) as [C | [(Hp & Hl & Hq) | (Hp & Hl & Hq)]].
    + rewrite (list_products_rejected req coll C).
      repeat split; [discriminate | left; reflexivity].
    + rewrite (list_products_refused req coll Hp Hl Hq).
      repeat split; [discriminate | right; left; reflexivity].
    + destruct (list_products_served req coll Hp Hl Hq) as (pg & fl & E & _).
      rewrite E. split; reflexivity.
  - destruct (JS.all_digits productId) eqn:D.
    + destruct (parseInt_digits productId D) as (id & P & _).
      rewrite (get_product_lookup productId id coll D P). cbn [fst].
      destruct (List.find _ coll); [split; reflexivity|].
      repeat split; [discriminate | right; left; reflexivity].
    + unfold get_product. rewrite D.
      repeat split; [discriminate | left; reflexivity].
  - destruct (Nat.lt_ge_cases (JS.length (JS.trim term)) 2) as [H | H].
    + rewrite (search_products_short term limit_param coll H).
      repeat split; [discriminate | left; reflexivity].
    + rewrite (search_products_long term limit_param coll H). cbv zeta.
      destruct (Store.filter_ok _); [split; reflexivity|].
      repeat split; [discriminate | right; left; reflexivity].
  - unfold get_stats, try_catch, Store.bind, Store.all2, Store.Product_countDocuments,
      Store.Product_distinct, Store.Product_aggregate, Store.guarded.
    cbn [Store.filter_ok forallb fst snd Store.ret]. split; reflexivity.
Qed.

(* ================================================================= *)
(** ** The product of a number, however it is written *)

(** X7: two strings of digits that denote the same number are
    answered alike, with the same call to the store: leading zeros in
    the path parameter do not matter. *)
Theorem get_product_reads_the_number (s1 s2 : string) (coll : Store.collection) :
  JS.all_digits s1 = true -> JS.all_digits s2 = true ->
  JS.parseInt_string s1 = JS.parseInt_string s2 ->
  get_product s1 coll = get_product s2 coll.
Proof.
  intros D1 D2 E.
  destruct (parseInt_digits s1 D1) as (id & P1 & _).
  assert (P2 : JS.parseInt_string s2 = Some id) by congruence.
  rewrite (get_product_lookup s1 id coll D1 P1), (get_product_lookup s2 id coll D2 P2).
  reflexivity.
Qed.

(** X7 on [007] and [7]. *)
Lemma get_product_reads_the_number_witness :
  get_product "007" catalog = get_product "7" catalog.
Proof.
  apply get_product_reads_the_number; reflexivity.
Defined.

(* ================================================================= *)
(** ** The term search with any pattern *)





(* ================================================================= *)
(** ** Leaving a filter out *)

Lemma regex_clause_dropped f v' v p :
  kept_or_dropped v' v ->
  Store.matches (regex_clause f v) p = true -> Store.matches (regex_clause f v') p = true.
Proof.
  intros [-> | ->]; [auto | reflexivity].
Qed.

Lemma bound_dropped v' v :
  kept_or_dropped v' v -> Spec.bound v' = Spec.bound v \/ Spec.bound v' = None.
Proof.
  intros [-> | ->]; [left | right]; reflexivity.
Qed.

Lemma filter_length_le {A} (f g : A -> bool) l :
  (forall x, f x = true -> g x = true) ->
  (List.length (List.filter f l) <= List.length (List.filter g l))%nat.
Proof.
  intros H. induction l as [|x l IH]; [reflexivity|].
  cbn [List.filter]. destruct (f x) eqn:F.
  - rewrite (H x F). cbn [List.length]. lia.
  - destruct (g x); cbn [List.length]; lia.
Qed.

Lemma counted_served req coll :
  success (fst (list_products req coll)) = true ->
  counted (fst (list_products req coll)) =
  Z.of_nat (List.length (List.filter (Store.matches (query_of req)) coll)).
Proof.
  intros H. destruct (list_products_success req coll H) as (Hp & Hl & Hq).
  destruct (list_products_served req coll Hp Hl Hq) as (pg & fl & E & _ & _ & Hc & _).
  rewrite E. exact Hc.
Qed.

(** X9: leaving out some of the filter parameters of a request never
    loses a product: what passes the filter of the request passes the
    filter of the request with fewer parameters, and [totalCount] does
    not get smaller. *)
Theorem fewer_filters_more_products (req' req : Query.t) :
  fewer_filters req' req ->
  (forall p,
     Store.matches (query_of req) p = true -> Store.matches (query_of req') p = true) /\
  (forall coll,
     success (fst (list_products req coll)) = true ->
     success (fst (list_products req' coll)) = true ->
     counted (fst (list_products req coll)) <= counted (fst (list_products req' coll))).
Proof.
  intros (Kc & Kd & Kb & Ks & Klo & Khi).
  assert (M : forall p, Store.matches (query_of req) p = true ->
                        Store.matches (query_of req') p = true).
  { intros p. rewrite !query_of_eq, !matches_app, !price_clause_matches, !andb_true_iff.
    intros (Hc & Hd & Hb & Hs & Hlo & Hhi).
    repeat split.
    - exact (regex_clause_dropped _ _ _ p Kc Hc).
    - exact (regex_clause_dropped _ _ _ p Kd Hd).
    - exact (regex_clause_dropped _ _ _ p Kb Hb).
    - destruct Ks as [-> | ->]; [exact Hs | reflexivity].
    - destruct (bound_dropped _ _ Klo) as [-> | ->]; [exact Hlo | reflexivity].
    - destruct (bound_dropped _ _ Khi) as [-> | ->]; [exact Hhi | reflexivity]. }
  split; [exact M|].
  intros coll S S'. rewrite (counted_served req coll S), (counted_served req' coll S').
  apply inj_le. apply filter_length_le. exact M.
Qed.

(** X9 on the catalog: with [brand=nike] two products, with
    [brand=nike&category=shoes] one. *)
Lemma fewer_filters_more_products_witness :
  let both :=
    {| Query.page := None; Query.limit := None; Query.category := Some "shoes";
       Query.department := None; Query.brand := Some "nike"; Query.minPrice := None;
       Query.maxPrice := None; Query.search := None; Query.sortBy := None;
       Query.sortOrder := None |} in
  counted (fst (list_products both catalog))
  <= counted (fst (list_products (with_category None both) catalog)).
Proof.
  cbv zeta.
  match goal with
  | |- counted (fst (list_products ?a _)) <= counted (fst (list_products ?b _)) =>
      apply (proj2 (fewer_filters_more_products b a
                      ltac:(unfold fewer_filters, kept_or_dropped; cbn; tauto)) catalog)
  end; reflexivity.
Defined.

(* ================================================================= *)
(** ** The ranges of the statistics *)

Lemma Qleast_spec l : forall x,
  In (Store.Qleast x l) (x :: l) /\ forall y, In y (x :: l) -> Qle (Store.Qleast x l) y.
Proof.
  induction l as [|z l IH]; intros x.
  - cbn. split; [left; reflexivity|]. intros y [<- | []]. apply Qle_refl.
  - unfold Store.Qleast. cbn [fold_left]. fold (Store.Qleast (if Qle_bool z x then z else x) l).
    destruct (IH (if Qle_bool z x then z else x)) as [Hin Hle].
    destruct (Qle_bool z x) eqn:E.
    + apply Qle_bool_iff in E. split.
      * destruct Hin as [<- | Hin]; [right; left; reflexivity | right; right; exact Hin].
      * intros y [<- | [<- | Hy]].
        -- apply Qle_trans with z; [apply Hle; left; reflexivity | exact E].
        -- apply Hle. left. reflexivity.
        -- apply Hle. right. exact Hy.
    + assert (L : Qle x z).
      { apply Qlt_le_weak, Qnot_le_lt. intros K. apply Qle_bool_iff in K. congruence. }
      split.
      * destruct Hin as [<- | Hin]; [left; reflexivity | right; right; exact Hin].
      * intros y [<- | [<- | Hy]].
        -- apply Hle. left. reflexivity.
        -- apply Qle_trans with x; [apply Hle; left; reflexivity | exact L].
        -- apply Hle. right. exact Hy.
Qed.

Lemma Qgreatest_spec l : forall x,
  In (Store.Qgreatest x l) (x :: l) /\ forall y, In y (x :: l) -> Qle y (Store.Qgreatest x l).
Proof.
  induction l as [|z l IH]; intros x.
  - cbn. split; [left; reflexivity|]. intros y [<- | []]. apply Qle_refl.
  - unfold Store.Qgreatest. cbn [fold_left].
    fold (Store.Qgreatest (if Qle_bool x z then z else x) l).
    destruct (IH (if Qle_bool x z then z else x)) as [Hin Hle].
    destruct (Qle_bool x z) eqn:E.
    + apply Qle_bool_iff in E. split.
      * destruct Hin as [<- | Hin]; [right; left; reflexivity | right; right; exact Hin].
      * intros y [<- | [<- | Hy]].
        -- apply Qle_trans with z; [exact E | apply Hle; left; reflexivity].
        -- apply Hle. left. reflexivity.
        -- apply Hle. right. exact Hy.
    + assert (L : Qle z x).
      { apply Qlt_le_weak, Qnot_le_lt. intros K. apply Qle_bool_iff in K. congruence. }
      split.
      * destruct Hin as [<- | Hin]; [left; reflexivity | right; right; exact Hin].
      * intros y [<- | [<- | Hy]].
        -- apply Hle. left. reflexivity.
        -- apply Qle_trans with x; [exact L | apply Hle; left; reflexivity].
        -- apply Hle. right. exact Hy.
Qed.

Lemma values_length f coll :
  (forall p, exists v, Store.field f p = Some v) ->
  List.length (Store.values f coll) = List.length coll.
Proof.
  intros F. induction coll as [|p l IH]; [reflexivity|].
  unfold Store.values. cbn [flat_map]. fold (Store.values f l).
  destruct (F p) as (v & ->). cbn [app List.length]. f_equal. exact IH.
Qed.

Lemma distinct_count f coll :
  (forall p, exists v, Store.field f p = Some v) ->
  coll <> [] ->
  1 <= Z.of_nat (List.length (Store.distinct_values f coll)) <= Z.of_nat (List.length coll).
Proof.
  intros F N. unfold Store.distinct_values. split.
  - destruct coll as [|p l]; [contradiction|].
    destruct (F p) as (v & E).
    assert (I : In v (nodup Store.value_eq_dec (Store.values f (p :: l)))).
    { apply nodup_In, values_In. exists p. split; [left; reflexivity | exact E]. }
    destruct (nodup Store.value_eq_dec (Store.values f (p :: l))); [contradiction|].
    cbn [List.length]. lia.
  - rewrite <- (values_length f coll F). apply inj_le.
    apply NoDup_incl_length; [apply NoDup_nodup|].
    intros v Hv. apply nodup_In in Hv. exact Hv.
Qed.

(** X10: on a catalog with products, [priceRange.min] and
    [priceRange.max] are the least and the greatest [retail_price] of the
    catalog, [costRange.min] and [costRange.max] the least and the
    greatest [cost], and each of the three counts of distinct values
    lies between 1 and [totalProducts]. *)
Theorem stats_ranges (coll : Store.collection) :
  coll <> [] ->
  exists st,
    fst (get_stats coll) = ok (Statistics st) /\
    (forall p, In p coll ->
       Qle (Range.min (Stats.priceRange st)) (Product.retail_price p) /\
       Qle (Product.retail_price p) (Range.max (Stats.priceRange st)) /\
       Qle (Range.min (Stats.costRange st)) (Product.cost p) /\
       Qle (Product.cost p) (Range.max (Stats.costRange st))) /\
    (exists p, In p coll /\ Qeq (Range.min (Stats.priceRange st)) (Product.retail_price p)) /\
    (exists p, In p coll /\ Qeq (Range.max (Stats.priceRange st)) (Product.retail_price p)) /\
    (exists p, In p coll /\ Qeq (Range.min (Stats.costRange st)) (Product.cost p)) /\
    (exists p, In p coll /\ Qeq (Range.max (Stats.costRange st)) (Product.cost p)) /\
    1 <= Stats.uniqueCategories st <= Stats.totalProducts st /\
    1 <= Stats.uniqueDepartments st <= Stats.totalProducts st /\
    1 <= Stats.uniqueBrands st <= Stats.totalProducts st.
Proof.
  intros N.
  unfold get_stats, try_catch, Store.bind, Store.all2, Store.Product_countDocuments,
    Store.Product_distinct, Store.Product_aggregate, Store.guarded.
  cbn [Store.filter_ok forallb fst snd Store.ret]. eexists. split; [reflexivity|].
  cbn [Stats.totalProducts Stats.uniqueCategories Stats.uniqueDepartments Stats.uniqueBrands
       Stats.priceRange Stats.costRange Range.min Range.max Range.average].
  rewrite filter_no_clause.
  assert (C : forall f get, (forall p, Store.field f p = Some (Store.VStr (get p))) ->
              1 <= Z.of_nat (List.length (Store.distinct_values f coll))
              <= Z.of_nat (List.length coll)).
  { intros f get F. apply distinct_count; [|exact N]. intros p. eexists. apply F. }
  destruct coll as [|p0 rest]; [contradiction|].
  cbn [Store.group_all hd_error option_map Store.minPrice Store.maxPrice Store.minCost
       Store.maxCost].
  destruct (Qleast_spec (map Product.retail_price rest) (Product.retail_price p0)) as [I1 L1].
  destruct (Qgreatest_spec (map Product.retail_price rest) (Product.retail_price p0)) as [I2 L2].
  destruct (Qleast_spec (map Product.cost rest) (Product.cost p0)) as [I3 L3].
  destruct (Qgreatest_spec (map Product.cost rest) (Product.cost p0)) as [I4 L4].
  change (Product.retail_price p0 :: map Product.retail_price rest)
    with (map Product.retail_price (p0 :: rest)) in *.
  change (Product.cost p0 :: map Product.cost rest) with (map Product.cost (p0 :: rest)) in *.
  repeat split.
  - rewrite or_zero_some. apply L1, in_map. assumption.
  - rewrite or_zero_some. apply L2, in_map. assumption.
  - rewrite or_zero_some. apply L3, in_map. assumption.
  - rewrite or_zero_some. apply L4, in_map. assumption.
  - apply in_map_iff in I1. destruct I1 as (p & E & Hp). exists p. split; [exact Hp|].
    rewrite or_zero_some, E. reflexivity.
  - apply in_map_iff in I2. destruct I2 as (p & E & Hp). exists p. split; [exact Hp|].
    rewrite or_zero_some, E. reflexivity.
  - apply in_map_iff in I3. destruct I3 as (p & E & Hp). exists p. split; [exact Hp|].
    rewrite or_zero_some, E. reflexivity.
  - apply in_map_iff in I4. destruct I4 as (p & E & Hp). exists p. split; [exact Hp|].
    rewrite or_zero_some, E. reflexivity.
  - apply (C "category" Product.category). reflexivity.
  - apply (C "category" Product.category). reflexivity.
  - apply (C "department" Product.department). reflexivity.
  - apply (C "department" Product.department). reflexivity.
  - apply (C "brand" Product.brand). reflexivity.
  - apply (C "brand" Product.brand). reflexivity.
Qed.

(** X10 on the catalog. *)
Lemma stats_ranges_witness :
  exists st,
    fst (get_stats catalog) = ok (Statistics st) /\
    Qle (Range.min (Stats.priceRange st)) (Product.retail_price cap) /\
    1 <= Stats.uniqueBrands st <= Stats.totalProducts st.
Proof.
  destruct (stats_ranges catalog) as (st & E & B & _ & _ & _ & _ & _ & _ & U).
  - discriminate.
  - exists st. split; [exact E|]. split; [|exact U].
    apply (B cap). right. right. left. reflexivity.
Defined.

(* ================================================================= *)
(** ** The client in front of the handlers *)

(** X12: what [getProducts] makes of the reply of the list handler.
    It throws the validation message of the server when the pagination
    is invalid and the fixed message of the server when the store
    refuses the filter, returns the envelope of the listing otherwise,
    and falls back on [Failed to fetch products] only without a
    reply. *)
Theorem client_getProducts (req : Query.t) (coll : Store.collection) :
  let reply := Some (fst (list_products req coll)) in
  (page_of req < 1 \/ limit_of req < 1 \/ 100 < limit_of req ->
     Client.getProducts reply
     = Client.Thrown
         "Invalid pagination parameters. Page must be >= 1, limit must be between 1-100") /\
  (1 <= page_of req -> 1 <= limit_of req <= 100 -> Store.filter_ok (query_of req) = false ->
     Client.getProducts reply
     = Client.Thrown "Internal server error while fetching products") /\
  (1 <= page_of req -> 1 <= limit_of req <= 100 -> Store.filter_ok (query_of req) = true ->
     exists data pg fl,
       Client.getProducts reply = Client.Returned (true, Listing data pg fl) /\
       json (fst (list_products req coll)) = Listing data pg fl) /\
  Client.getProducts None = Client.Thrown "Failed to fetch products".
Proof.
  cbv zeta. split; [|split; [|split]].
  - intros C. rewrite (list_products_rejected req coll C). reflexivity.
  - intros Hp Hl Hq. rewrite (list_products_refused req coll Hp Hl Hq). reflexivity.
  - intros Hp Hl Hq. destruct (list_products_served req coll Hp Hl Hq) as (pg & fl & E & _).
    rewrite E. eexists _, pg, fl. split; reflexivity.
  - reflexivity.
Qed.

(* ================================================================= *)
(** ** The order of the data *)

(** X13: the data of a successful list response are in the order of
    the directive that went to the store; sorted by [id], as by
    default, the ids do not decrease, or do not increase when
    [sortOrder] is [desc], and likewise the prices when sorted by
    [retail_price]. *)
Theorem data_follow_the_sort (req : Query.t) (coll : Store.collection) :
  success (fst (list_products req coll)) = true ->
  let direction := sortOrder_of req in
  let data := listed (fst (list_products req coll)) in
  Sorted (Spec.in_order (build_sort (sortBy_of req) direction)) data /\
  (sortBy_of req = "id" ->
     Sorted (fun a b => if direction <? 0 then Product.id b <= Product.id a
                        else Product.id a <= Product.id b) data) /\
  (sortBy_of req = "retail_price" ->
     Sorted (fun a b => directed direction (Product.retail_price a) (Product.retail_price b))
       data).
Proof.
  intros H. cbv zeta.
  destruct (list_products_success req coll H) as (Hp & Hl & Hq).
  destruct (list_products_served req coll Hp Hl Hq) as (pg & fl & E & _).
  rewrite E. cbn [fst listed json ok].
  assert (S : Sorted (Spec.in_order (build_sort (sortBy_of req) (sortOrder_of req)))
                (Spec.window ((page_of req - 1) * limit_of req) (limit_of req)
                   (Store.sort_by (build_sort (sortBy_of req) (sortOrder_of req))
                      (List.filter (Store.matches (query_of req)) coll)))).
  { unfold Spec.window. apply Sorted_firstn, Sorted_skipn, sort_by_sorted. }
  split; [exact S|]. split.
  - intros F. revert S. apply Sorted_weaken. intros a b O. rewrite F in O.
    apply (in_order_number "id" _ (fun p => inject_Z (Product.id p))) in O;
      [|discriminate|reflexivity].
    unfold directed in O. destruct (sortOrder_of req <? 0); rewrite Zle_Qle; exact O.
  - intros F. revert S. apply Sorted_weaken. intros a b O. rewrite F in O.
    apply (in_order_number "retail_price" _ Product.retail_price) in O;
      [exact O|discriminate|reflexivity].
Qed.

(** X13 on the catalog sorted by price, dearest first. *)
Lemma data_follow_the_sort_witness :
  let req :=
    {| Query.page := None; Query.limit := None; Query.category := None;
       Query.department := None; Query.brand := None; Query.minPrice := None;
       Query.maxPrice := None; Query.search := None; Query.sortBy := Some "retail_price";
       Query.sortOrder := Some "desc" |} in
  listed (fst (list_products req catalog)) = [jeans; shoe; cap] /\
  Sorted (fun a b => directed (-1) (Product.retail_price a) (Product.retail_price b))
    (listed (fst (list_products req catalog))).
Proof.
  cbv zeta. split; [vm_compute; reflexivity|].
  match goal with
  | |- Sorted _ (listed (fst (list_products ?r _))) =>
      exact (proj2 (proj2 (data_follow_the_sort r catalog eq_refl)) eq_refl)
  end.
Defined.

(* ================================================================= *)
(** ** The endpoints agree *)

(** X14: the search endpoint and the [search] parameter of the list
    endpoint select the same products: when a list request with only
    [search] set succeeds, the search endpoint with the same text and a
    limit of at least [totalCount] returns [totalCount] products, among
    them every product of the page. *)
Theorem search_agrees_with_list (term : string) (limit_param : option string)
    (req : Query.t) (coll : Store.collection) :
  (2 <= JS.length (JS.trim term))%nat ->
  Query.search req = Some term ->
  Query.category req = None -> Query.department req = None -> Query.brand req = None ->
  Query.minPrice req = None -> Query.maxPrice req = None ->
  success (fst (list_products req coll)) = true ->
  let limit := JS.or_default (JS.parseInt limit_param) 10 in
  0 < limit -> counted (fst (list_products req coll)) <= limit ->
  let r := fst (search_products term limit_param coll) in
  success r = true /\
  snd (found r) = counted (fst (list_products req coll)) /\
  (forall p, In p (listed (fst (list_products req coll))) -> In p (fst (found r))).
Proof.
  intros H Es Ec Ed Eb Elo Ehi S. cbv zeta. intros P C.
  assert (T : JS.truthy_string term = true).
  { destruct term; [|reflexivity]. vm_compute in H. lia. }
  assert (Q : query_of req = [Store.Or (search_alternatives term)]).
  { unfold query_of, build_query. rewrite Es, Ec, Ed, Eb, Elo, Ehi, T. reflexivity. }
  destruct (list_products_success req coll S) as (Hp & Hl & Hq).
  rewrite (counted_served req coll S) in *. rewrite Q in *.
  rewrite (search_products_long term limit_param coll H). cbv zeta. rewrite Hq.
  cbn [fst success ok found json snd].
  assert (L : Store.limit_stage (JS.or_default (JS.parseInt limit_param) 10)
                (List.filter (Store.matches [Store.Or (search_alternatives term)]) coll)
              = List.filter (Store.matches [Store.Or (search_alternatives term)]) coll).
  { unfold Store.limit_stage.
    destruct (Z.eqb_spec (JS.or_default (JS.parseInt limit_param) 10) 0); [reflexivity|].
    apply firstn_all2. lia. }
  rewrite L. split; [reflexivity|]. split; [reflexivity|].
  intros p Hin.
  destruct (list_products_served req coll Hp Hl) as (pg & fl & E & _).
  { rewrite Q. exact Hq. }
  rewrite E in Hin. cbn [fst listed json ok] in Hin.
  apply window_In, sort_by_In in Hin. rewrite Q in Hin. exact Hin.
Qed.

(** X14 on the catalog with the text [nike]. *)
Lemma search_agrees_with_list_witness :
  let req :=
    {| Query.page := None; Query.limit := None; Query.category := None;
       Query.department := None; Query.brand := None; Query.minPrice := None;
       Query.maxPrice := None; Query.search := Some "nike"; Query.sortBy := None;
       Query.sortOrder := None |} in
  snd (found (fst (search_products "nike" None catalog)))
  = counted (fst (list_products req catalog)).
Proof.
  cbv zeta.
  match goal with
  | |- _ = counted (fst (list_products ?r _)) =>
      apply (search_agrees_with_list "nike" None r catalog)
  end; try reflexivity; vm_compute; try lia; discriminate.
Defined.

(** X15: the statistics agree with the other endpoints on the same
    collection: [totalProducts] is the [totalCount] of the list request
    without parameters, [uniqueCategories] the [count] of the
    categories endpoint and [uniqueBrands] the [count] of the brands
    endpoint. *)
Theorem stats_agree_with_the_endpoints (coll : Store.collection) :
  exists st,
    statistics (fst (get_stats coll)) = Some st /\
    Stats.totalProducts st = counted (fst (list_products Query.empty coll)) /\
    Stats.uniqueCategories st = names_count (fst (get_categories coll)) /\
    Stats.uniqueBrands st = names_count (fst (get_brands coll)).
Proof.
  unfold get_stats, try_catch, Store.bind, Store.all2, Store.Product_countDocuments,
    Store.Product_distinct, Store.Product_aggregate, Store.guarded.
  cbn [Store.filter_ok forallb fst snd Store.ret statistics json ok]. eexists.
  split; [reflexivity|].
  cbn [Stats.totalProducts Stats.uniqueCategories Stats.uniqueBrands].
  split; [|split].
  - rewrite (counted_served Query.empty coll).
    + reflexivity.
    + destruct (list_products_served Query.empty coll) as (pg & fl & E & _);
        [reflexivity | split; discriminate | reflexivity |].
      rewrite E. reflexivity.
  - reflexivity.
  - reflexivity.
Qed.
